(** * DVF ingestion script ([exploration/scripts/ingest_dvf.py])

    A shallow embedding of the pipeline stages of the script and the
    properties its specification states about them.

    - Python [str] values are Rocq strings holding their UTF-8 bytes
      (equality and substring search agree with Python's on code points).
    - A JSON object read with [d["k"]] / [d.get("k")] is a [gmap] from
      keys to string values; a missing key is a missing entry.
    - An exception is a value of [exn]; a function that may raise returns
      a [result].
    - The network is a function from requests to responses, a variable of
      the functions that call [requests.get].
    - A table is the list of its columns, in file order.
    - [print] calls write to standard output only and are left out.
    - The later stages ([download_and_extract], [export_to_parquet],
      [main]) work on a file system, a map from paths to contents; the
      formats of the archive, of the text and of the parquet file are the
      work of libraries and enter as variables of these stages. *)

From Stdlib Require Import ZArith QArith Ascii String.
From stdpp Require Import base option list gmap strings pretty.

Local Open Scope Z_scope.

(** ** Exceptions and results *)

Inductive exn : Type :=
| KeyError (key : string)
| TypeError (msg : string)
| ValueError (msg : string)
| OverflowError (msg : string)
| HTTPError (status : Z).

Inductive result (A : Type) : Type :=
| Ok (a : A)
| Raise (e : exn).
Arguments Ok {A} a.
Arguments Raise {A} e.

(** Sequencing: the first exception raised ends the computation. *)
#[global] Instance result_ret : MRet result := λ A a, Ok a.
#[global] Instance result_bind : MBind result := λ A B k r,
  match r with
  | Ok a => k a
  | Raise e => Raise e
  end.

(** ** Python strings *)

Module Py.

(** [str(n)] for an [int]. *)
Definition str (n : Z) : string := pretty n.

(** [needle in hay] for two [str]. *)
Fixpoint contains (needle hay : string) : bool :=
  String.prefix needle hay ||
  match hay with
  | EmptyString => false
  | String _ rest => contains needle rest
  end.

(** [s.replace(old, new)], [old] not empty: occurrences are replaced
    from the left, without overlap.  [skip] counts the characters of a
    replaced occurrence still to be dropped. *)
Fixpoint replace_from (old new : string) (skip : nat) (s : string) : string :=
  match s with
  | EmptyString => EmptyString
  | String c rest =>
      match skip with
      | S k => replace_from old new k rest
      | O =>
          if String.prefix old s
          then new +:+ replace_from old new (String.length old - 1) rest
          else String c (replace_from old new 0 rest)
      end
  end.

Definition replace (old new s : string) : string := replace_from old new 0 s.

End Py.

(** ** The catalogue API ([requests]) *)

(** A JSON object whose fields are strings. *)
Abbreviation obj := (gmap string string).

(** [d[k]] *)
Definition getitem (d : obj) (k : string) : result string :=
  match d !! k with
  | Some v => Ok v
  | None => Raise (KeyError k)
  end.

(** What the script reads of a response: the status, and the decoded body,
    an object whose fields ([data], [resources]) are lists of objects. *)
Record Response : Type := {
  status_code : Z;
  json : gmap string (list obj);
}.

(** [response.raise_for_status()] *)
Definition raise_for_status (r : Response) : result unit :=
  if (400 <=? status_code r) && (status_code r <? 600)
  then Raise (HTTPError (status_code r))
  else Ok tt.

(** [bool(x)] for [x] either [None] or a dict. *)
Definition truthy (x : option obj) : bool :=
  match x with
  | None => false
  | Some d => negb (bool_decide (d = ∅))
  end.

Definition DVF_TITLE : string := "Demandes de valeurs foncières".

Section Catalogue.

(** [requests.get(url, params=...)]: the answer of the network. *)
Variable requests_get : string → list (string * string) → Response.

(** [next((d for d in datasets if d["title"] == ...), None)] *)
Fixpoint next_with_title (datasets : list obj) : result (option obj) :=
  match datasets with
  | [] => Ok None
  | d :: rest =>
      t ← getitem d "title";
      if String.eqb t DVF_TITLE then Ok (Some d) else next_with_title rest
  end.

Definition search_dvf_dataset : result string :=
  let response :=
    requests_get "https://www.data.gouv.fr/api/1/datasets/"
      [("q", "demandes valeurs foncieres"); ("page_size", "10")] in
  raise_for_status response;;
  let datasets := default [] (json response !! "data") in
  dvf_dataset ← next_with_title datasets;
  if negb (truthy dvf_dataset)
  then Raise (ValueError "DVF dataset not found")
  else
    match dvf_dataset with
    | Some d => getitem d "id"
    | None => Raise (TypeError "'NoneType' object is not subscriptable")
    end.

(** The test of the scan in [get_resource_url]. *)
Definition resource_matches (year : Z) (r : obj) : bool :=
  let title := default EmptyString (r !! "title") in
  Py.contains (Py.str year) title
  && bool_decide (r !! "format" = Some "txt.zip").

(** The [for r in resources: ... break] loop. *)
Fixpoint scan_resources (year : Z) (resources : list obj) : option obj :=
  match resources with
  | [] => None
  | r :: rest =>
      if resource_matches year r then Some r else scan_resources year rest
  end.

Definition get_resource_url (dataset_id : string) (year : Z) : result string :=
  let response :=
    requests_get
      ("https://www.data.gouv.fr/api/1/datasets/" +:+ dataset_id +:+ "/") [] in
  raise_for_status response;;
  let resources := default [] (json response !! "resources") in
  let target_resource := scan_resources year resources in
  if negb (truthy target_resource)
  then Raise (ValueError ("No data found for year " +:+ Py.str year))
  else
    match target_resource with
    | Some r => getitem r "url"
    | None => Raise (TypeError "'NoneType' object is not subscriptable")
    end.

End Catalogue.

(** ** Tables ([pandas])

    A cell of a table is a [scalar].  The missing markers of pandas
    ([pd.NA], [NaN], [NaT]) are one value, [NA].  A cell of a column of
    integers is an [Int]; a cell of a column of floats is a [Float], a
    binary64 number given by its exact value.

    The calls of the script are embedded by what pandas (version 2) does
    to a column:
    - [to_numeric(errors="coerce")] reads every text of the column, gives
      a missing cell for a text that is no number, and settles the type of
      the column as a whole: integers when every cell is a whole number in
      decimal, floats otherwise, each number rounded to binary64;
    - [astype("Int64")] keeps a column of integers of 64 bits, turns a
      column of floats that are all whole numbers of 64 bits into
      integers, keeps missing cells, and raises for any other column;
    - [str.replace(regex=False)] rewrites text and keeps missing cells;
    - [to_datetime(format=, errors="coerce")] reads a day of the calendar
      within the range of a nanosecond timestamp, and gives a missing cell
      for any other text. *)

Inductive float64 : Type :=
| Finite (q : Q)
| Infinity (negative : bool).

Inductive scalar : Type :=
| NA
| Str (s : string)
| Int (z : Z)
| Float (x : float64)
| Timestamp (year month day : Z).

Abbreviation Series := (list scalar).

(** Columns in file order, each with its label. *)
Abbreviation DataFrame := (list (string * Series)).

(** The fields of a delimited text file, by column: what
    [pd.read_csv(..., dtype=str, keep_default_na=False)] yields. *)
Abbreviation TextTable := (list (string * list string)).

Module pd.

(** Cell by cell, labels and order kept. *)
Definition map_cells {A B : Type} (f : A → B)
    (t : list (string * list A)) : list (string * list B) :=
  (λ c : string * list A, (c.1, f <$> c.2)) <$> t.

Definition read_csv (t : TextTable) : DataFrame := map_cells Str t.

(** [df[col]] *)
Fixpoint get {A : Type} (df : list (string * list A)) (col : string)
    : result (list A) :=
  match df with
  | [] => Raise (KeyError col)
  | (name, s) :: rest => if String.eqb name col then Ok s else get rest col
  end.

(** [df[col] = s]: in place for a column that exists, appended otherwise. *)
Fixpoint set (df : DataFrame) (col : string) (s : Series) : DataFrame :=
  match df with
  | [] => [(col, s)]
  | (name, s0) :: rest =>
      if String.eqb name col then (name, s) :: rest
      else (name, s0) :: set rest col s
  end.

(** The cell of column [col] in row [i], if there is one. *)
Definition cell {A : Type} (df : list (string * list A)) (col : string)
    (i : nat) : option A :=
  match get df col with
  | Ok s => s !! i
  | Raise _ => None
  end.

(** [df.replace(old, value)] with [old] a string: whole cells equal to
    [old] become [value], in every column. *)
Definition replace_cell (old : string) (value : scalar) (x : scalar) : scalar :=
  match x with
  | Str s => if String.eqb s old then value else x
  | _ => x
  end.

Definition replace (old : string) (value : scalar) (df : DataFrame) : DataFrame :=
  map_cells (replace_cell old value) df.

(** [s.astype("object")] *)
Definition astype_object (s : Series) : Series := s.

(** [s.str.replace(old, new, regex=False)]: missing cells stay missing. *)
Definition str_replace_cell (old new : string) (x : scalar) : scalar :=
  match x with
  | Str s => Str (Py.replace old new s)
  | _ => NA
  end.

Definition str_replace (old new : string) (s : Series) : Series :=
  str_replace_cell old new <$> s.

(** *** Numbers

    The text pandas reads as a number: blanks, a sign, digits with an
    optional fraction part, an optional exponent, blanks; or a signed
    [inf] / [infinity] in any case. *)

Definition is_space (c : ascii) : bool :=
  let n := N_of_ascii c in ((n =? 32) || ((9 <=? n) && (n <=? 13)))%N.

Definition digit (c : ascii) : option Z :=
  let n := Z.of_N (N_of_ascii c) in
  if (48 <=? n) && (n <=? 57) then Some (n - 48) else None.

Fixpoint skip_spaces (s : string) : string :=
  match s with
  | String c rest => if is_space c then skip_spaces rest else s
  | EmptyString => s
  end.

(** A run of digits: its value on top of [acc], its length on top of
    [count], and the text after it. *)
Fixpoint digits (acc : Z) (count : nat) (s : string) : Z * nat * string :=
  match s with
  | String c rest =>
      match digit c with
      | Some d => digits (10 * acc + d) (S count) rest
      | None => (acc, count, s)
      end
  | EmptyString => (acc, count, s)
  end.

(** An optional sign: whether it is [-], and the text after it. *)
Definition sign (s : string) : bool * string :=
  match s with
  | String "-" rest => (true, rest)
  | String "+" rest => (false, rest)
  | _ => (false, s)
  end.

Definition lower (c : ascii) : ascii :=
  let n := N_of_ascii c in
  if ((65 <=? n) && (n <=? 90))%N then ascii_of_N (n + 32) else c.

Fixpoint lowercase (s : string) : string :=
  match s with
  | String c rest => String (lower c) (lowercase rest)
  | EmptyString => EmptyString
  end.

(** [m * 10 ^ e] *)
Definition scale (m e : Z) : Q :=
  if 0 <=? e then inject_Z (m * 10 ^ e) else m # Z.to_pos (10 ^ (- e)).

Definition parse_decimal (s : string) : option Q :=
  let '(neg, s1) := sign (skip_spaces s) in
  let '(m1, n1, s2) := digits 0 0 s1 in
  let '(m2, n2, s3) :=
    match s2 with
    | String "." rest => digits m1 n1 rest
    | _ => (m1, n1, s2)
    end in
  if bool_decide (n2 = 0%nat) then None
  else
    let frac := Z.of_nat (n2 - n1) in
    let m := if neg then - m2 else m2 in
    let '(e, s5) :=
      match s3 with
      | String c rest =>
          if bool_decide (lower c = "e"%char) then
            let '(eneg, s4) := sign rest in
            let '(x, nx, s5) := digits 0 0 s4 in
            if bool_decide (nx = 0%nat) then (0, s3)
            else (if eneg then - x else x, s5)
          else (0, s3)
      | EmptyString => (0, s3)
      end in
    match skip_spaces s5 with
    | EmptyString => Some (scale m (e - frac))
    | _ => None
    end.

Definition parse_infinity (s : string) : option float64 :=
  let '(neg, s1) := sign s in
  let w := lowercase s1 in
  if String.eqb w "inf" || String.eqb w "infinity"
  then Some (Infinity neg) else None.

Definition parse_number (s : string) : option float64 :=
  match parse_decimal s with
  | Some q => Some (Finite q)
  | None => parse_infinity s
  end.

(** A whole number in decimal: blanks, a sign, digits, blanks.  The
    reader takes such a text for an integer, of any size. *)
Definition parse_integer (s : string) : option Z :=
  let '(neg, s1) := sign (skip_spaces s) in
  let '(m, n, s2) := digits 0 0 s1 in
  if bool_decide (n = 0%nat) then None
  else
    match skip_spaces s2 with
    | EmptyString => Some (if neg then - m else m)
    | _ => None
    end.

(** The binary64 number nearest to [q], the one with the even mantissa
    when two are as near; [Infinity] when [q] is beyond the largest. *)
Definition nearest (q : Q) : float64 :=
  let n := Qnum q in
  let d := Zpos (Qden q) in
  let a := Z.abs n in
  if a =? 0 then Finite 0
  else
    let l0 := Z.log2 a - Z.log2 d in
    let l := if a * 2 ^ Z.max 0 (- l0) <? d * 2 ^ Z.max 0 l0 then l0 - 1 else l0 in
    let e := Z.max (l - 52) (- 1074) in
    let num := a * 2 ^ Z.max 0 (- e) in
    let den := d * 2 ^ Z.max 0 e in
    let m0 := num / den in
    let r := num mod den in
    let m := if (2 * r <? den) || ((2 * r =? den) && Z.even m0)
             then m0 else m0 + 1 in
    if (971 <? e) || ((e =? 971) && (m =? 2 ^ 53)) then Infinity (n <? 0)
    else Finite (Qred ((Z.sgn n * m * 2 ^ Z.max 0 e) # Z.to_pos (2 ^ Z.max 0 (- e)))).

(** What the reader makes of one cell: nothing, a whole number, or a
    float.  A number too large for binary64 is refused as any text that is
    no number is.  The float is taken to be the nearest one: the reader
    builds it digit by digit in binary64, which gives the nearest for a
    text of up to fifteen digits and can give a neighbour of it for a
    longer one. *)
Inductive number : Type :=
| Missing
| Whole (z : Z)
| Real (x : float64).

Definition read_number (x : scalar) : number :=
  match x with
  | Str s =>
      match parse_number s with
      | Some (Finite q) =>
          match nearest q with
          | Finite v =>
              match parse_integer s with
              | Some z => Whole z
              | None => Real (Finite v)
              end
          | Infinity _ => Missing
          end
      | Some (Infinity neg) => Real (Infinity neg)
      | None => Missing
      end
  | Int z => Whole z
  | Float v => Real v
  | NA | Timestamp _ _ _ => Missing
  end.

Definition in_int64 (z : Z) : bool := (- 2 ^ 63 <=? z) && (z <? 2 ^ 63).
Definition in_uint64 (z : Z) : bool := (0 <=? z) && (z <? 2 ^ 64).

(** Every cell is a whole number within a range. *)
Definition all_whole (range : Z → bool) (cells : list number) : bool :=
  forallb (λ n, match n with Whole z => range z | _ => false end) cells.

Definition as_integer (n : number) : scalar :=
  match n with
  | Whole z => Int z
  | _ => NA
  end.

Definition as_float (n : number) : scalar :=
  match n with
  | Missing => NA
  | Whole z => Float (nearest (inject_Z z))
  | Real v => Float v
  end.

(** [pd.to_numeric(s, errors="coerce")]: a column of integers ([int64],
    or [uint64] when some are beyond and none is negative) when every cell
    is a whole number, a column of floats otherwise. *)
Definition to_numeric (s : Series) : Series :=
  let cells := read_number <$> s in
  if all_whole in_int64 cells || all_whole in_uint64 cells
  then as_integer <$> cells
  else as_float <$> cells.

(** [s.astype("Int64")] on a numeric column.  A column of integers is
    cast as it is.  In a column of floats the missing cells are masked;
    the largest number is compared with its integer part ([int] of an
    infinity raises [OverflowError]); if they differ the column is cast
    as a column of objects, else as it is; and the cast is refused with
    [TypeError] unless the integers it gives equal the numbers cast. *)

Definition unsafe_cast (dtype : string) : exn :=
  TypeError ("cannot safely cast non-equivalent " +:+ dtype +:+ " to int64").

Definition not_numeric : exn :=
  TypeError "object cannot be converted to an IntegerDtype".

Definition is_integer (x : scalar) : bool :=
  match x with
  | Int _ => true
  | _ => false
  end.

(** The numbers of a column of floats, missing cells left out. *)
Definition values (s : Series) : list float64 :=
  omap (λ x, match x with Float v => Some v | _ => None end) s.

Definition less (a b : float64) : bool :=
  match a, b with
  | Infinity true, Infinity true => false
  | Infinity true, _ => true
  | _, Infinity true => false
  | Infinity false, _ => false
  | _, Infinity false => true
  | Finite p, Finite q => negb (Qle_bool q p)
  end.

(** The first of the largest numbers, as [np.nanargmax] finds it. *)
Definition maximum (l : list float64) : option float64 :=
  match l with
  | [] => None
  | v :: rest => Some (foldl (λ m x, if less m x then x else m) v rest)
  end.

(** [int(x)] for a finite float: the digits after the point are dropped. *)
Definition truncate (q : Q) : Z := Z.quot (Qnum q) (Zpos (Qden q)).

Definition is_whole (q : Q) : bool := Z.rem (Qnum q) (Zpos (Qden q)) =? 0.

(** The whole number of 64 bits that a float is, if it is one. *)
Definition int64_of (v : float64) : option Z :=
  match v with
  | Finite q =>
      let z := Qnum q / Zpos (Qden q) in
      if (z * Zpos (Qden q) =? Qnum q) && in_int64 z
      then Some z else None
  | Infinity _ => None
  end.

(** A column of integers is kept if its numbers are of 64 bits. *)
Definition cast_integer (x : scalar) : result scalar :=
  match x with
  | Int z => if in_int64 z then Ok (Int z) else Raise (unsafe_cast "uint64")
  | _ => Ok x
  end.

(** A column of floats is cast where it stands when its largest number is
    whole: every number must then be a whole number of 64 bits. *)
Definition cast_float (x : scalar) : result scalar :=
  match x with
  | NA => Ok NA
  | Int z => Ok (Int z)
  | Float v =>
      match int64_of v with
      | Some z => Ok (Int z)
      | None => Raise (unsafe_cast "float64")
      end
  | Str _ | Timestamp _ _ _ => Raise not_numeric
  end.

(** When the largest number is not whole the column is cast as a column
    of objects: [int] is applied to each float in turn, and the numbers
    that come out are not those that went in. *)
Definition cast_object (x : scalar) : result scalar :=
  match x with
  | Float (Infinity _) =>
      Raise (OverflowError "cannot convert float infinity to integer")
  | Float (Finite q) =>
      if in_int64 (truncate q) then Ok (Int (truncate q))
      else Raise (OverflowError "Python int too large to convert to C long")
  | Str _ | Timestamp _ _ _ => Raise not_numeric
  | _ => Ok x
  end.

Definition astype_Int64 (s : Series) : result Series :=
  if forallb is_integer s then mapM cast_integer s
  else
    match maximum (values s) with
    | Some (Infinity _) =>
        Raise (OverflowError "cannot convert float infinity to integer")
    | Some (Finite m) =>
        if is_whole m then mapM cast_float s
        else (mapM cast_object s;; Raise (unsafe_cast "object"))
    | None => mapM cast_float s
    end.

(** *** Dates

    [pd.to_datetime(s, format="%d/%m/%Y", errors="coerce")]: the whole
    text is day [/] month [/] year.  [%d] is a day 1 to 31 in one or two
    digits (or a blank and one digit), [%m] a month 1 to 12 in one or two
    digits, [%Y] a year in four digits.  The digits read are the ASCII
    ones: a text in ASCII is read as the library reads it (the library
    also takes the decimal digits of other scripts, which are left
    out). *)

(** The text before the first [sep], and the text after it. *)
Fixpoint split_at (sep : ascii) (s : string) : option (string * string) :=
  match s with
  | EmptyString => None
  | String c rest =>
      if Ascii.eqb c sep then Some (EmptyString, rest)
      else
        match split_at sep rest with
        | Some (before, after) => Some (String c before, after)
        | None => None
        end
  end.

Definition between (lo hi x : Z) : option Z :=
  if (lo <=? x) && (x <=? hi) then Some x else None.

Definition day_field (s : string) : option Z :=
  match s with
  | String a EmptyString => d ← digit a; between 1 9 d
  | String a (String b EmptyString) =>
      if Ascii.eqb a " " then d ← digit b; between 1 9 d
      else x ← digit a; y ← digit b; between 1 31 (10 * x + y)
  | _ => None
  end.

Definition month_field (s : string) : option Z :=
  match s with
  | String a EmptyString => d ← digit a; between 1 9 d
  | String a (String b EmptyString) =>
      x ← digit a; y ← digit b; between 1 12 (10 * x + y)
  | _ => None
  end.

Definition year_field (s : string) : option Z :=
  match s with
  | String a (String b (String c (String d EmptyString))) =>
      w ← digit a; x ← digit b; y ← digit c; z ← digit d;
      Some (1000 * w + 100 * x + 10 * y + z)
  | _ => None
  end.

(** The fields of a text in the format [%d/%m/%Y]: year, month, day. *)
Definition strptime (s : string) : option (Z * Z * Z) :=
  '(ds, s1) ← split_at "/" s;
  '(ms, ys) ← split_at "/" s1;
  d ← day_field ds;
  m ← month_field ms;
  y ← year_field ys;
  Some (y, m, d).

Definition is_leap (y : Z) : bool :=
  (y mod 4 =? 0) && (negb (y mod 100 =? 0) || (y mod 400 =? 0)).

Definition days_in_month (y m : Z) : Z :=
  if m =? 2 then (if is_leap y then 29 else 28)
  else if (m =? 4) || (m =? 6) || (m =? 9) || (m =? 11) then 30
  else 31.

(** A day of the calendar that a nanosecond timestamp of 64 bits can
    hold: from 1677-09-22 to 2262-04-11.  (A later pandas keeps days
    beyond that range; the properties are about days within it.) *)
Definition in_bounds (y m d : Z) : bool :=
  let n := 10000 * y + 100 * m + d in
  (16770922 <=? n) && (n <=? 22620411).

Definition valid_date (y m d : Z) : bool :=
  (1 <=? m) && (m <=? 12) && (1 <=? d) && (d <=? days_in_month y m)
  && in_bounds y m d.

Definition to_datetime_cell (x : scalar) : scalar :=
  match x with
  | Str s =>
      match strptime s with
      | Some (y, m, d) => if valid_date y m d then Timestamp y m d else NA
      | None => NA
      end
  | Timestamp y m d => Timestamp y m d
  | NA | Int _ | Float _ => NA
  end.

Definition to_datetime (s : Series) : Series := to_datetime_cell <$> s.

End pd.

(** ** Transformer ([load_and_transform]) *)

(** The semantic type of each typed column, in the order of the dict. *)
Definition transformations : list (string * string) :=
  [ ("No disposition", "int");
    ("Date mutation", "date");
    ("Valeur fonciere", "float");
    ("No voie", "str");
    ("Code postal", "str");
    ("Code voie", "str");
    ("Code commune", "str");
    ("Code departement", "str");
    ("No plan", "str");
    ("Section", "str");
    ("Code type local", "str");
    ("Nombre de lots", "int");
    ("Nombre pieces principales", "int");
    ("Surface reelle bati", "float");
    ("Surface terrain", "float") ].

(** The body of the loop, for one entry of the dict. *)
Definition transform (df : DataFrame) (col dtype : string) : result DataFrame :=
  if String.eqb dtype "str" then
    s ← pd.get df col;
    Ok (pd.set df col (pd.astype_object s))
  else if String.eqb dtype "int" then
    s ← pd.get df col;
    s' ← pd.astype_Int64 (pd.to_numeric s);
    Ok (pd.set df col s')
  else if String.eqb dtype "float" then
    df ← (if String.eqb col "Valeur fonciere" then
            s ← pd.get df col;
            Ok (pd.set df col (pd.str_replace "," "." s))
          else Ok df);
    s ← pd.get df col;
    Ok (pd.set df col (pd.to_numeric s))
  else if String.eqb dtype "date" then
    s ← pd.get df col;
    Ok (pd.set df col (pd.to_datetime s))
  else Ok df.

(** [for col, dtype in items: ...] *)
Fixpoint for_items (items : list (string * string)) (df : DataFrame)
    : result DataFrame :=
  match items with
  | [] => Ok df
  | (col, dtype) :: rest => df' ← transform df col dtype; for_items rest df'
  end.

(** [txt] is the content of the file at [txt_path]. *)
Definition load_and_transform (txt : TextTable) : result DataFrame :=
  let df := pd.read_csv txt in
  let df := pd.replace EmptyString NA df in
  for_items transformations df.

(** ** Vocabulary of the properties *)

(** The two criteria of the resource locator. *)
Definition title_contains_year (year : Z) (r : obj) : Prop :=
  ∃ a b, default EmptyString (r !! "title") = a +:+ Py.str year +:+ b.

Definition format_is_archive (r : obj) : Prop :=
  r !! "format" = Some "txt.zip".

Definition both_criteria (year : Z) (r : obj) : Prop :=
  title_contains_year year r ∧ format_is_archive r.

Definition other_title (d : obj) : Prop :=
  ∃ t, d !! "title" = Some t ∧ t ≠ DVF_TITLE.

(** The four semantic types. *)
Definition known (dtype : string) : Prop :=
  dtype ∈ ["int"; "float"; "date"; "str"].

(** What one turn of the loop makes of its column. *)
Definition coerce (col dtype : string) (s : Series) : result Series :=
  if String.eqb dtype "str" then Ok s
  else if String.eqb dtype "int" then pd.astype_Int64 (pd.to_numeric s)
  else if String.eqb dtype "float" then
    Ok (pd.to_numeric
          (if String.eqb col "Valeur fonciere"
           then pd.str_replace "," "." s else s))
  else if String.eqb dtype "date" then Ok (pd.to_datetime s)
  else Ok s.

(** A field of the file as the loop finds it: empty fields are missing. *)
Definition loaded (v : string) : scalar := pd.replace_cell EmptyString NA (Str v).

(** A date written out as [%d/%m/%Y], in two, two and four digits. *)
Definition chr (k : Z) : ascii := ascii_of_N (Z.to_N (48 + k)).

Definition two (n : Z) : string :=
  String (chr (n / 10)) (String (chr (n mod 10)) EmptyString).

Definition four (n : Z) : string :=
  String (chr (n / 1000)) (String (chr (n / 100 mod 10)) (two (n mod 100))).

Definition strftime (y m d : Z) : string :=
  two d +:+ "/" +:+ two m +:+ "/" +:+ four y.


(** ** Sample inputs *)

Module Sample.

(** One row of a file: every typed column, and one column ([Commune])
    that the table of types does not name. *)
Definition row : list (string * string) :=
  [ ("No disposition", "1");
    ("Date mutation", "05/03/2023");
    ("Valeur fonciere", "1234,56");
    ("No voie", "12");
    ("Code postal", "01000");
    ("Code voie", "0042");
    ("Commune", EmptyString);
    ("Code commune", "53");
    ("Code departement", "01");
    ("No plan", "112");
    ("Section", "AB");
    ("Code type local", EmptyString);
    ("Nombre de lots", "abc");
    ("Nombre pieces principales", "4");
    ("Surface reelle bati", "1234,56");
    ("Surface terrain", "250") ].

(** [row] with the field [name] set to [value]. *)
Definition with_field (name value : string) (r : list (string * string))
    : list (string * string) :=
  (λ f : string * string,
     if String.eqb f.1 name then (f.1, value) else f) <$> r.

(** [row] without the field [name]. *)
Definition without_field (name : string) (r : list (string * string))
    : list (string * string) :=
  filter (λ f : string * string, f.1 ≠ name) r.

(** The file of one row. *)
Definition file (r : list (string * string)) : TextTable :=
  (λ f : string * string, (f.1, [f.2])) <$> r.

Definition txt : TextTable := file row.

(** A whole number is expected, a fraction is found. *)
Definition txt_fraction : TextTable :=
  file (with_field "Nombre de lots" "1.5" row).

(** The monetary value written with a point in another [float] column. *)
Definition txt_point : TextTable :=
  file (with_field "Surface terrain" "1234.56" row).


(** No date column, and a fraction in the first typed column. *)
Definition txt_no_date : TextTable :=
  file (without_field "Date mutation" (with_field "No disposition" "1.5" row)).

(** The resources of a dataset. *)
Definition resources : list obj :=
  [ {[ "title" := "Valeurs foncieres 2023"; "format" := "pdf";
       "url" := "https://files/notice-2023.pdf" ]};
    {[ "title" := "Valeurs foncieres 2022"; "format" := "txt.zip";
       "url" := "https://files/vf-2022.zip" ]};
    {[ "format" := "txt.zip"; "url" := "https://files/untitled.zip" ]};
    {[ "title" := "Valeurs foncieres 2023"; "format" := "txt.zip";
       "url" := "https://files/vf-2023.zip" ]};
    {[ "title" := "Valeurs foncieres 2023 (bis)"; "format" := "txt.zip";
       "url" := "https://files/vf-2023-bis.zip" ]} ].

(** The first page of a catalogue search. *)
Definition datasets : list obj :=
  [ {[ "id" := "a1"; "title" := "Demandes de valeurs foncières géolocalisées" ]};
    {[ "id" := "b2"; "title" := "Demandes de valeurs foncières" ]};
    {[ "id" := "c3"; "title" := "demandes de valeurs foncières" ]} ].

(** A network that answers every request with the same body. *)
Definition network (body : gmap string (list obj))
    : string → list (string * string) → Response :=
  λ _ _, {| status_code := 200; json := body |}.

(** What [load_and_transform] returns for [txt]. *)
Definition frame : DataFrame :=
  [ ("No disposition", [Int 1]);
    ("Date mutation", [Timestamp 2023 3 5]);
    ("Valeur fonciere", [Float (pd.nearest 1234.56)]);
    ("No voie", [Str "12"]);
    ("Code postal", [Str "01000"]);
    ("Code voie", [Str "0042"]);
    ("Commune", [NA]);
    ("Code commune", [Str "53"]);
    ("Code departement", [Str "01"]);
    ("No plan", [Str "112"]);
    ("Section", [Str "AB"]);
    ("Code type local", [NA]);
    ("Nombre de lots", [NA]);
    ("Nombre pieces principales", [Int 4]);
    ("Surface reelle bati", [NA]);
    ("Surface terrain", [Int 250]) ].

End Sample.

(** ** More vocabulary *)

(** Two tables with the same labels in the same order, and as many rows in
    each column. *)
Definition same_shape {A B : Type}
    (a : list (string * list A)) (b : list (string * list B)) : Prop :=
  Forall2 (λ x y, x.1 = y.1 ∧ length x.2 = length y.2) a b.

(** Every character of a text passes a test. *)
Fixpoint string_forall (P : ascii → bool) (s : string) : bool :=
  match s with
  | EmptyString => true
  | String c rest => P c && string_forall P rest
  end.

Definition is_digit (c : ascii) : bool :=
  match pd.digit c with Some _ => true | None => false end.




(** Whether a text has a comma. *)
Definition no_comma (s : string) : bool :=
  string_forall (λ c, negb (Ascii.eqb c ",")) s.

Definition has_comma (s : string) : bool := negb (no_comma s).

(** The text that the numeric reader is given, in a [float] column. *)
Definition float_text (c v : string) : string :=
  if String.eqb c "Valeur fonciere" then Py.replace "," "." v else v.

(** A text with every comma turned into a point, and nothing else
    changed. *)
Fixpoint comma_to_point (s : string) : string :=
  match s with
  | EmptyString => EmptyString
  | String c rest =>
      String (if Ascii.eqb c "," then "."%char else c) (comma_to_point rest)
  end.

(** The binary64 number nearest to the decimal 1234.56, which is no
    binary64 number itself. *)
Definition float_1234_56 : Q := 2714826150374277 # 2199023255552.

(** *** The format of a date

    What the format day [/] month [/] year of four digits takes for the
    day [d] of the month [m] of the year [y]: the day in two digits, or
    in one, or in one after a blank; the month in two digits or in one;
    the year in four. *)
Definition one (n : Z) : string := String (chr n) EmptyString.

Definition day_text (t : string) (d : Z) : Prop :=
  1 ≤ d ≤ 31 ∧ (t = two d ∨ (d ≤ 9 ∧ (t = one d ∨ t = String " " (one d)))).

Definition month_text (t : string) (m : Z) : Prop :=
  1 ≤ m ≤ 12 ∧ (t = two m ∨ (m ≤ 9 ∧ t = one m)).

Definition year_text (t : string) (y : Z) : Prop :=
  0 ≤ y ≤ 9999 ∧ t = four y.

Definition day_month_year (v : string) (y m d : Z) : Prop :=
  ∃ ds ms ys, v = ds +:+ "/" +:+ ms +:+ "/" +:+ ys
              ∧ day_text ds d ∧ month_text ms m ∧ year_text ys y.





(** The characters of a date: digits, the stroke and the blank. *)
Definition date_char (c : ascii) : bool :=
  is_digit c || Ascii.eqb c "/" || Ascii.eqb c " ".

(** ** Fetcher, exporter and pipeline

    The later stages work on files.  The file system is the map from the
    paths of the files to their contents.  Directories are no part of
    it: they are taken to exist or to be made without error, so that the
    [mkdir] calls change no file and are left out; and writing the
    columnar file is taken to succeed.  What the libraries compute from the contents
    of a file, and how they build paths, are variables of the stages:
    the stages are embedded for any archive format, text format, columnar
    format and path syntax. *)

Abbreviation FS := (gmap string string).

(** The exceptions of the later stages, next to those of the catalogue
    and of the transformer. *)
Inductive failure : Type :=
| Exn (e : exn)
| IndexError
| FileNotFoundError (path : string)
| LibraryError (name : string).

Inductive outcome (A : Type) : Type :=
| Done (a : A)
| Failed (e : failure).
Arguments Done {A} a.
Arguments Failed {A} e.

#[global] Instance outcome_ret : MRet outcome := λ A a, Done a.
#[global] Instance outcome_bind : MBind outcome := λ A B k r,
  match r with
  | Done a => k a
  | Failed e => Failed e
  end.

Definition lift {A : Type} (r : result A) : outcome A :=
  match r with
  | Ok a => Done a
  | Raise e => Failed (Exn e)
  end.

(** The answer to [requests.get(url, stream=True)]: the status, and the
    chunks of the body that [iter_content] yields. *)
Record Stream : Type := {
  head : Response;
  iter_content : list string;
}.

(** The arguments of the command line, parsed. *)
Record Args : Type := {
  args_year : Z;
  args_output : option string;
}.

Section Pipeline.

Variable requests_get : string → list (string * string) → Response.
Variable requests_get_stream : string → Stream.

(** [Path(s)], [dir / name], and the place where [extractall] puts the
    member of an archive. *)
Variable Path : string → string.
Variable joinpath : string → string → string.
Variable extract_to : string → string → string.

(** The members of an archive, name and content, in the order of
    [namelist]; the fields of a delimited text; the bytes of a table
    written by [to_parquet]. *)
Variable ZipFile : string → outcome (list (string * string)).
Variable read_text : string → outcome TextTable.
Variable to_parquet : DataFrame → string.

(** [Path(__file__).parent.parent.parent] *)
Variable base_dir : string.

(** [z.extractall(raw_dir)] *)
Definition extractall (raw_dir : string) (members : list (string * string))
    (fs : FS) : FS :=
  foldl (λ fs m, <[extract_to raw_dir m.1 := m.2]> fs) fs members.

Definition download_and_extract (url raw_dir : string) (fs : FS)
    : outcome string * FS :=
  let zip_path := joinpath raw_dir "temp_download.zip" in
  let response := requests_get_stream url in
  match raise_for_status (head response) with
  | Raise e => (Failed (Exn e), fs)
  | Ok _ =>
      let fs := <[zip_path := String.concat EmptyString (iter_content response)]> fs in
      match fs !! zip_path with
      | None => (Failed (FileNotFoundError zip_path), fs)
      | Some bytes =>
          match ZipFile bytes with
          | Failed e => (Failed e, fs)
          | Done [] => (Failed IndexError, fs)
          | Done (((txt_file, _) :: _) as members) =>
              let fs := extractall raw_dir members fs in
              let txt_path := joinpath raw_dir txt_file in
              match fs !! zip_path with
              | None => (Failed (FileNotFoundError zip_path), fs)
              | Some _ => (Done txt_path, delete zip_path fs)
              end
          end
      end
  end.

(** [load_and_transform(txt_path)], reading the file. *)
Definition load_and_transform_at (txt_path : string) (fs : FS)
    : outcome DataFrame :=
  match fs !! txt_path with
  | None => Failed (FileNotFoundError txt_path)
  | Some text => txt ← read_text text; lift (load_and_transform txt)
  end.

Definition export_to_parquet (df : DataFrame) (output_path : string) (fs : FS)
    : outcome unit * FS :=
  (Done tt, <[output_path := to_parquet df]> fs).

(** The output path that [main] settles on. *)
Definition output_path_of (args : Args) : string :=
  let processed_dir := joinpath (joinpath base_dir "data") "processed" in
  match args_output args with
  | Some o =>
      if String.eqb o EmptyString
      then joinpath processed_dir ("dvf_" +:+ Py.str (args_year args) +:+ ".parquet")
      else Path o
  | None => joinpath processed_dir ("dvf_" +:+ Py.str (args_year args) +:+ ".parquet")
  end.

Definition main (args : Args) (fs : FS) : outcome unit * FS :=
  let raw_dir := joinpath (joinpath (joinpath base_dir "data") "raw") "dvf" in
  let output_path := output_path_of args in
  match search_dvf_dataset requests_get with
  | Raise e => (Failed (Exn e), fs)
  | Ok dataset_id =>
      match get_resource_url requests_get dataset_id (args_year args) with
      | Raise e => (Failed (Exn e), fs)
      | Ok url =>
          match download_and_extract url raw_dir fs with
          | (Failed e, fs) => (Failed e, fs)
          | (Done txt_path, fs) =>
              match load_and_transform_at txt_path fs with
              | Failed e => (Failed e, fs)
              | Done df => export_to_parquet df output_path fs
              end
          end
      end
  end.

End Pipeline.

(** ** More sample inputs *)

Module More.

(** A page whose second entry has no title, before the entry looked for. *)
Definition datasets_untitled : list obj :=
  take 1 Sample.datasets ++ {[ "id" := "z9" ]} :: drop 1 Sample.datasets.

(** A page without the entry looked for, whose second entry has no
    title. *)
Definition datasets_unfound : list obj := take 2 datasets_untitled.

(** A page whose first entry with the title has no id; the next has. *)
Definition datasets_no_id : list obj :=
  take 1 Sample.datasets ++ {[ "title" := DVF_TITLE ]} :: drop 1 Sample.datasets.

(** Resources of which the first with the year and the format has no url. *)
Definition resources_no_url : list obj :=
  [ {[ "format" := "txt.zip"; "url" := "https://files/untitled.zip" ]};
    {[ "title" := "Valeurs foncieres 2023";
       "url" := "https://files/no-format-2023.zip" ]};
    {[ "title" := "Valeurs foncieres 2023"; "format" := "txt.zip" ]};
    {[ "title" := "Valeurs foncieres 2023 (bis)"; "format" := "txt.zip";
       "url" := "https://files/vf-2023-bis.zip" ]} ].

(** A file with the header of [Sample.row] and no row. *)
Definition header : TextTable :=
  (λ f : string * string, (f.1, [])) <$> Sample.row.

(** A world for the later stages: a network, a path syntax, an archive
    format, a text format, a columnar format, and a disk. *)
Definition catalogue : string → list (string * string) → Response :=
  Sample.network {[ "data" := Sample.datasets; "resources" := Sample.resources ]}.

Definition stream (status : Z) : string → Stream :=
  λ _, {| head := {| status_code := status; json := ∅ |};
          iter_content := ["PK-"; "archive"] |}.

Definition join (dir name : string) : string := dir +:+ "/" +:+ name.

Definition members : list (string * string) :=
  [ ("valeursfoncieres-2023.txt", "No disposition|Date mutation|...");
    ("notice.txt", "Lisez-moi") ].

Definition unzip (content : outcome (list (string * string)))
    : string → outcome (list (string * string)) :=
  λ bytes, if String.eqb bytes "PK-archive" then content
           else Failed (LibraryError "BadZipFile").

Definition read_text : string → outcome TextTable :=
  λ text, if String.eqb text "No disposition|Date mutation|..."
          then Done Sample.txt
          else Failed (LibraryError "ParserError").

Definition parquet : DataFrame → string := λ _, "PAR1".

Definition disk : FS := {[ "README" := "notes" ]}.

End More.

(** * Properties *)

(** ** Strings *)

Example str_2023 : Py.str 2023 = "2023".
Proof. reflexivity. Qed.

Example title_len : String.length DVF_TITLE = 30%nat.
Proof. reflexivity. Qed.

Example contains_ex : Py.contains "2023" "Valeurs foncieres 2023 S1" = true
  ∧ Py.contains "2023" "Valeurs 2022 / 203" = false.
Proof. split; reflexivity. Qed.

Example replace_ex : Py.replace "," "." "1,234,56" = "1.234.56"
  ∧ Py.replace "ab" "x" "aababab" = "axxx".
Proof. split; reflexivity. Qed.

(** [needle in hay] holds exactly of the texts that have [needle] inside. *)
Lemma prefix_spec (n h : string) :
  String.prefix n h = true ↔ ∃ b, h = n +:+ b.
Proof.
  revert h. induction n as [|c n IH]; intros h.
  - destruct h; simpl; split; eauto.
  - destruct h as [|c' h]; simpl.
    + split; [done | intros [b Hb]; discriminate].
    + destruct (ascii_dec c c') as [->|Hne].
      * rewrite IH. split; intros [b Hb]; exists b.
        -- by rewrite Hb.
        -- by injection Hb.
      * split; [done | intros [b Hb]; injection Hb; congruence].
Qed.

Lemma contains_unfold (n h : string) :
  Py.contains n h =
  String.prefix n h ||
  match h with EmptyString => false | String _ rest => Py.contains n rest end.
Proof. by destruct h. Qed.

Lemma contains_spec (n h : string) :
  Py.contains n h = true ↔ ∃ a b, h = a +:+ n +:+ b.
Proof.
  induction h as [|c h IH]; rewrite contains_unfold.
  - rewrite orb_false_r, prefix_spec. split.
    + intros [b Hb]. by exists EmptyString, b.
    + intros (a & b & Hab). destruct a; [by exists b | discriminate].
  - rewrite orb_true_iff, prefix_spec, IH. split.
    + intros [[b Hb] | (a & b & Hab)].
      * by exists EmptyString, b.
      * exists (String c a), b. simpl. by rewrite Hab.
    + intros (a & b & Hab). destruct a as [|c' a].
      * left. by exists b.
      * right. exists a, b. by injection Hab.
Qed.

(** ** The catalogue *)

Lemma resource_matches_spec (year : Z) (r : obj) :
  resource_matches year r = true ↔ both_criteria year r.
Proof.
  unfold resource_matches, both_criteria, title_contains_year, format_is_archive.
  by rewrite andb_true_iff, contains_spec, bool_decide_eq_true.
Qed.

Lemma resource_matches_not (year : Z) (r : obj) :
  resource_matches year r = false ↔ ¬ both_criteria year r.
Proof. rewrite <- resource_matches_spec. by destruct (resource_matches year r). Qed.

Lemma scan_resources_skip (year : Z) (pre rest : list obj) :
  Forall (λ x, ¬ both_criteria year x) pre →
  scan_resources year (pre ++ rest) = scan_resources year rest.
Proof.
  induction 1 as [|x pre Hx _ IH]; [done|].
  simpl. apply resource_matches_not in Hx. by rewrite Hx.
Qed.

Lemma truthy_has_key (d : obj) (k v : string) :
  d !! k = Some v → truthy (Some d) = true.
Proof.
  intros Hk. simpl. rewrite bool_decide_eq_false_2; [done|].
  intros ->. by rewrite lookup_empty in Hk.
Qed.

Lemma next_with_title_skip (pre rest : list obj) :
  Forall other_title pre →
  next_with_title (pre ++ rest) = next_with_title rest.
Proof.
  induction 1 as [|x pre (t & Ht & Hne) _ IH]; [done|].
  simpl. unfold getitem. rewrite Ht. simpl.
  apply String.eqb_neq in Hne. by rewrite Hne.
Qed.

Lemma next_with_title_hit (d : obj) (rest : list obj) :
  d !! "title" = Some DVF_TITLE →
  next_with_title (d :: rest) = Ok (Some d).
Proof.
  intros Ht. cbn [next_with_title]. unfold getitem. rewrite Ht.
  cbn [mbind result_bind]. by rewrite String.eqb_refl.
Qed.

Lemma next_with_title_found (datasets : list obj) (d : obj) :
  next_with_title datasets = Ok (Some d) →
  d ∈ datasets ∧ d !! "title" = Some DVF_TITLE.
Proof.
  induction datasets as [|x rest IH]; [done|].
  simpl. unfold getitem. destruct (x !! "title") as [t|] eqn:Ht; [|done].
  simpl. destruct (String.eqb_spec t DVF_TITLE) as [->|Hne].
  - intros [= ->]. split; [left | done].
  - intros H. destruct (IH H). split; [by right | done].
Qed.

(** ** Columns of a table *)

Lemma get_set_eq (df : DataFrame) (c : string) (s : Series) :
  pd.get (pd.set df c s) c = Ok s.
Proof.
  induction df as [|[name s0] rest IH]; simpl.
  - by rewrite String.eqb_refl.
  - destruct (String.eqb name c) eqn:E; simpl; by rewrite E.
Qed.

Lemma get_set_ne (df : DataFrame) (c c' : string) (s : Series) :
  c ≠ c' → pd.get (pd.set df c s) c' = pd.get df c'.
Proof.
  intros Hne. induction df as [|[name s0] rest IH]; simpl.
  - apply String.eqb_neq in Hne. by rewrite Hne.
  - destruct (String.eqb_spec name c) as [->|Hc]; simpl.
    + apply String.eqb_neq in Hne. by rewrite Hne.
    + by rewrite IH.
Qed.

Lemma set_set (df : DataFrame) (c : string) (a b : Series) :
  pd.set (pd.set df c a) c b = pd.set df c b.
Proof.
  induction df as [|[name s0] rest IH]; simpl.
  - by rewrite String.eqb_refl.
  - destruct (String.eqb name c) eqn:E; simpl; rewrite E; [done|].
    by rewrite IH.
Qed.

Lemma get_ok_label {A : Type} (df : list (string * list A)) (c : string) (s : list A) :
  pd.get df c = Ok s → c ∈ df.*1.
Proof.
  induction df as [|[name s0] rest IH]; simpl; [done|].
  destruct (String.eqb_spec name c) as [->|Hc]; [left | right; auto].
Qed.

Lemma get_raise_label {A : Type} (df : list (string * list A)) (c : string) (e : exn) :
  pd.get df c = Raise e → e = KeyError c ∧ c ∉ df.*1.
Proof.
  induction df as [|[name s0] rest IH]; simpl.
  - intros [= <-]. split; [done | apply not_elem_of_nil].
  - destruct (String.eqb_spec name c) as [->|Hc]; [done|].
    intros H. destruct (IH H) as [-> Hnot]. split; [done|].
    rewrite not_elem_of_cons. split; [congruence | done].
Qed.

Lemma get_missing {A : Type} (df : list (string * list A)) (c : string) :
  c ∉ df.*1 → pd.get df c = Raise (KeyError c).
Proof.
  intros Hnot. destruct (pd.get df c) as [s|e] eqn:E.
  - by apply get_ok_label in E.
  - by apply get_raise_label in E as [-> _].
Qed.

Lemma labels_set (df : DataFrame) (c : string) (s s0 : Series) :
  pd.get df c = Ok s0 → (pd.set df c s).*1 = df.*1.
Proof.
  induction df as [|[name s1] rest IH]; simpl; [done|].
  destruct (String.eqb name c) eqn:E; simpl; [done|].
  intros H. f_equal. exact (IH H).
Qed.

Lemma labels_map_cells {A B : Type} (f : A → B) (t : list (string * list A)) :
  (pd.map_cells f t).*1 = t.*1.
Proof.
  unfold pd.map_cells. induction t as [|[name s] rest IH]; simpl; [done|].
  f_equal. exact IH.
Qed.

Lemma get_map_cells {A B : Type} (f : A → B) (t : list (string * list A)) (c : string) :
  pd.get (pd.map_cells f t) c
  = match pd.get t c with Ok s => Ok (f <$> s) | Raise e => Raise e end.
Proof.
  unfold pd.map_cells. induction t as [|[name s] rest IH]; simpl; [done|].
  by destruct (String.eqb name c).
Qed.

Lemma cell_map_cells {A B : Type} (f : A → B) (t : list (string * list A))
    (c : string) (i : nat) :
  pd.cell (pd.map_cells f t) c i = f <$> pd.cell t c i.
Proof.
  unfold pd.cell. rewrite get_map_cells.
  destruct (pd.get t c); [apply list_lookup_fmap | done].
Qed.

(** ** Sequences of cells *)

Lemma mapM_total {A B : Type} (f : A → B) (l : list A) :
  mapM (λ x, Ok (f x)) l = Ok (f <$> l).
Proof. induction l as [|x l IH]; simpl; [done|]. by rewrite IH. Qed.

Lemma mapM_fmap {A B C : Type} (g : A → B) (f : B → result C) (l : list A) :
  mapM f (g <$> l) = mapM (λ x, f (g x)) l.
Proof.
  induction l as [|x l IH]; [done|].
  rewrite fmap_cons. cbn [mapM]. by rewrite IH.
Qed.

Lemma mapM_lookup {A B : Type} (f : A → result B) (l : list A) (l' : list B)
    (i : nat) (x : A) :
  mapM f l = Ok l' → l !! i = Some x →
  ∃ y, f x = Ok y ∧ l' !! i = Some y.
Proof.
  revert l' i. induction l as [|a l IH]; intros l' i; simpl; [done|].
  destruct (f a) as [b|] eqn:Ha; simpl; [|done].
  destruct (mapM f l) as [k|] eqn:Hk; simpl; [|done].
  intros [= <-]. destruct i as [|i]; simpl.
  - intros [= <-]. eauto.
  - by apply IH.
Qed.

Lemma mapM_raise {A B : Type} (f : A → result B) (l : list A) (e : exn) :
  mapM f l = Raise e → ∃ x, x ∈ l ∧ f x = Raise e.
Proof.
  induction l as [|a l IH]; simpl; [done|].
  destruct (f a) as [b|e'] eqn:Ha; simpl.
  - destruct (mapM f l) as [k|e'] eqn:Hk; simpl; [done|].
    intros [= <-]. destruct IH as (x & Hx & Hfx); [done|].
    exists x. split; [by right | done].
  - intros [= <-]. exists a. split; [left | done].
Qed.

Lemma mapM_all_ok {A B : Type} (f : A → result B) (l : list A) :
  (∀ x, x ∈ l → ∃ y, f x = Ok y) → ∃ l', mapM f l = Ok l'.
Proof.
  intros Hall. destruct (mapM f l) as [l'|e] eqn:E; [eauto|].
  apply mapM_raise in E as (x & Hx & Hfx).
  destruct (Hall x Hx) as [y Hy]. congruence.
Qed.

(** ** The loop over the typed columns *)

Lemma known_cases (dtype : string) :
  known dtype → dtype = "int" ∨ dtype = "float" ∨ dtype = "date" ∨ dtype = "str".
Proof. unfold known. rewrite !elem_of_cons, elem_of_nil. tauto. Qed.

(** One turn of the loop reads the column, converts it and writes it
    back. *)
Lemma transform_coerce (df : DataFrame) (col dtype : string) :
  known dtype →
  transform df col dtype
  = (s ← pd.get df col; s' ← coerce col dtype s; Ok (pd.set df col s')).
Proof.
  intros H. apply known_cases in H as [ -> | [ -> | [ -> | -> ] ] ];
    unfold transform, coerce; cbn [String.eqb Ascii.eqb Bool.eqb andb];
    destruct (pd.get df col) as [s|e] eqn:Hget; cbn [mbind result_bind];
    try done.
  - destruct (String.eqb col "Valeur fonciere"); cbn [mbind result_bind].
    + rewrite get_set_eq. cbn [mbind result_bind]. by rewrite set_set.
    + by rewrite Hget.
  - by destruct (String.eqb col "Valeur fonciere"); cbn [mbind result_bind];
      rewrite ?Hget.
Qed.

Lemma transform_labels (df out : DataFrame) (col dtype : string) :
  transform df col dtype = Ok out → out.*1 = df.*1.
Proof.
  destruct (decide (known dtype)) as [Hk|Hk].
  - rewrite transform_coerce by done.
    destruct (pd.get df col) as [s|] eqn:Hget; cbn [mbind result_bind]; [|done].
    destruct (coerce _ _ s) as [s'|]; cbn [mbind result_bind]; [|done].
    intros [= <-]. by eapply labels_set.
  - unfold transform.
    assert (∀ t, known t → String.eqb dtype t = false) as Hne.
    { intros t Ht. apply String.eqb_neq. by intros <-. }
    rewrite !Hne by (unfold known; set_solver).
    by intros [= <-].
Qed.

Lemma for_items_labels (items : list (string * string)) (df out : DataFrame) :
  for_items items df = Ok out → out.*1 = df.*1.
Proof.
  revert df. induction items as [|[col dtype] rest IH]; intros df; simpl.
  - by intros [= <-].
  - destruct (transform df col dtype) as [df1|] eqn:Ht; cbn [mbind result_bind]; [|done].
    intros H. rewrite (IH _ H). by eapply transform_labels.
Qed.

Lemma for_items_app (a b : list (string * string)) (df : DataFrame) :
  for_items (a ++ b) df = (df1 ← for_items a df; for_items b df1).
Proof.
  revert df. induction a as [|[col dtype] a IH]; intros df; simpl; [done|].
  destruct (transform df col dtype); cbn [mbind result_bind]; [apply IH | done].
Qed.

(** The columns of a table the loop has run over. *)
Lemma for_items_ok (items : list (string * string)) (df out : DataFrame) :
  NoDup items.*1 → Forall (λ e, known e.2) items →
  for_items items df = Ok out →
  (∀ c, c ∉ items.*1 → pd.get out c = pd.get df c)
  ∧ (∀ c dt, (c, dt) ∈ items →
       ∃ s s', pd.get df c = Ok s ∧ coerce c dt s = Ok s'
               ∧ pd.get out c = Ok s').
Proof.
  revert df. induction items as [|[col dtype] rest IH]; intros df Hnd Hk; simpl.
  - intros [= <-]. split; [done|]. intros c dt H. by apply elem_of_nil in H.
  - apply NoDup_cons in Hnd as [Hcol Hnd]. apply Forall_cons in Hk as [Hd Hk].
    rewrite transform_coerce by done.
    destruct (pd.get df col) as [s|] eqn:Hget; cbn [mbind result_bind]; [|done].
    destruct (coerce _ _ s) as [s'|] eqn:Hs'; cbn [mbind result_bind]; [|done].
    intros Hrest. destruct (IH _ Hnd Hk Hrest) as [Hother Hin]. split.
    + intros c Hc. apply not_elem_of_cons in Hc as [Hne Hc].
      rewrite (Hother c Hc). by apply get_set_ne.
    + intros c dt Hc. apply elem_of_cons in Hc as [[= -> ->]|Hc].
      * exists s, s'. rewrite (Hother col Hcol), get_set_eq. done.
      * destruct (Hin c dt Hc) as (s1 & s1' & Hg & Hm & Ho).
        exists s1, s1'. split; [|done].
        rewrite <- Hg. symmetry. apply get_set_ne.
        intros ->. apply Hcol. by apply (list_elem_of_fmap_2 fst _ (c, dt)).
Qed.

(** Only the integer conversion refuses a column. *)
Lemma coerce_raise_int (col dtype : string) (s : Series) (e : exn) :
  coerce col dtype s = Raise e →
  dtype = "int" ∧ pd.astype_Int64 (pd.to_numeric s) = Raise e.
Proof.
  unfold coerce.
  destruct (String.eqb dtype "str"); [done|].
  destruct (String.eqb_spec dtype "int") as [->|_]; [done|].
  destruct (String.eqb dtype "float"); [done|].
  by destruct (String.eqb dtype "date").
Qed.

(** Why the loop raises: a typed column is not there, or an integer
    column is refused. *)
Lemma for_items_raise (items : list (string * string)) (df : DataFrame) (e : exn) :
  NoDup items.*1 → Forall (λ e, known e.2) items →
  for_items items df = Raise e →
  (∃ c, c ∈ items.*1 ∧ (c ∉ df.*1) ∧ e = KeyError c)
  ∨ (∃ c s, (c, "int") ∈ items ∧ pd.get df c = Ok s
            ∧ pd.astype_Int64 (pd.to_numeric s) = Raise e).
Proof.
  revert df. induction items as [|[col dtype] rest IH]; intros df Hnd Hk; simpl; [done|].
  apply NoDup_cons in Hnd as [Hcol Hnd]. apply Forall_cons in Hk as [Hd Hk].
  destruct (transform df col dtype) as [df1|e'] eqn:Ht; cbn [mbind result_bind].
  - intros Hrest. apply transform_labels in Ht as Hlab.
    rewrite transform_coerce in Ht by done.
    destruct (pd.get df col) as [s0|] eqn:Hget; cbn [mbind result_bind] in Ht; [|done].
    destruct (coerce _ _ s0) as [s0'|]; cbn [mbind result_bind] in Ht; [|done].
    injection Ht as <-.
    destruct (IH _ Hnd Hk Hrest) as [(c & Hc & Hnot & ->)|(c & s & Hc & Hg & Hr)].
    + left. exists c. rewrite <- Hlab. split; [by right | done].
    + right. exists c, s. split; [by right|]. split; [|done].
      rewrite <- Hg. symmetry. apply get_set_ne.
      intros ->. apply Hcol. by apply (list_elem_of_fmap_2 fst _ (c, "int")).
  - intros [= ->]. rewrite transform_coerce in Ht by done.
    destruct (pd.get df col) as [s0|e0] eqn:Hget; cbn [mbind result_bind] in Ht.
    + destruct (coerce _ _ s0) as [s0'|e0] eqn:Hm; cbn [mbind result_bind] in Ht; [done|].
      injection Ht as ->. apply coerce_raise_int in Hm as [-> Hr].
      right. exists col, s0. split; [left | done].
    + injection Ht as ->. apply get_raise_label in Hget as [-> Hnot].
      left. exists col. split; [left | done].
Qed.

Lemma for_items_missing (items : list (string * string)) (df : DataFrame) :
  Forall (λ e, known e.2) items →
  (∃ c, c ∈ items.*1 ∧ c ∉ df.*1) →
  ∃ e, for_items items df = Raise e.
Proof.
  revert df. induction items as [|[col dtype] rest IH]; intros df Hk (c & Hc & Hnot).
  - by apply elem_of_nil in Hc.
  - apply Forall_cons in Hk as [Hd Hk]. simpl.
    destruct (transform df col dtype) as [df1|e] eqn:Ht; cbn [mbind result_bind];
      [|eauto].
    apply IH; [done|]. exists c.
    rewrite (transform_labels _ _ _ _ Ht). split; [|done].
    simpl in Hc. apply elem_of_cons in Hc as [->|Hc]; [|done].
    rewrite transform_coerce, (get_missing df col Hnot) in Ht by done. done.
Qed.

Lemma for_items_succeeds (items : list (string * string)) (df : DataFrame) :
  NoDup items.*1 → Forall (λ e, known e.2) items →
  (∀ c dt, (c, dt) ∈ items →
     ∃ s s', pd.get df c = Ok s ∧ coerce c dt s = Ok s') →
  ∃ out, for_items items df = Ok out.
Proof.
  revert df. induction items as [|[col dtype] rest IH]; intros df Hnd Hk Hall; simpl.
  - eauto.
  - apply NoDup_cons in Hnd as [Hcol Hnd]. apply Forall_cons in Hk as [Hd Hk].
    rewrite transform_coerce by done.
    destruct (Hall col dtype) as (s & s' & Hg & Hm); [left|].
    rewrite Hg. cbn [mbind result_bind]. rewrite Hm. cbn [mbind result_bind].
    apply IH; [done..|].
    intros c dt Hc. destruct (Hall c dt) as (s1 & s1' & Hg1 & Hm1); [by right|].
    exists s1, s1'. split; [|done]. rewrite <- Hg1. apply get_set_ne.
    intros ->. apply Hcol. by apply (list_elem_of_fmap_2 fst _ (c, dt)).
Qed.

(** ** The conversions of a column *)

Lemma mapM_length {A B : Type} (f : A → result B) (l : list A) (l' : list B) :
  mapM f l = Ok l' → length l' = length l.
Proof.
  revert l'. induction l as [|a l IH]; intros l'; simpl.
  - by intros [= <-].
  - destruct (f a) as [b|]; simpl; [|done].
    destruct (mapM f l) as [k|]; simpl; [|done].
    intros [= <-]. simpl. f_equal. by apply IH.
Qed.

(** A cell of the column that [pd.to_numeric] gives. *)
Lemma to_numeric_lookup (s : Series) (i : nat) (x : scalar) :
  s !! i = Some x →
  pd.to_numeric s !! i = Some (pd.as_integer (pd.read_number x))
  ∨ pd.to_numeric s !! i = Some (pd.as_float (pd.read_number x)).
Proof.
  intros Hx. unfold pd.to_numeric.
  destruct (_ || _); [left | right]; by rewrite !list_lookup_fmap, Hx.
Qed.

Lemma to_numeric_length (s : Series) : length (pd.to_numeric s) = length s.
Proof. unfold pd.to_numeric. destruct (_ || _); by rewrite !length_fmap. Qed.

Lemma all_whole_lookup (range : Z → bool) (cells : list pd.number)
    (i : nat) (n : pd.number) :
  pd.all_whole range cells = true → cells !! i = Some n →
  ∃ z, n = pd.Whole z ∧ range z = true.
Proof.
  unfold pd.all_whole. rewrite forallb_forall. intros Hall Hi.
  apply list_elem_of_lookup_2, list_elem_of_In, Hall in Hi.
  destruct n as [|z|]; [done| |done]. by exists z.
Qed.

(** A cell that is no number is missing, whatever the other cells are. *)
Lemma to_numeric_missing (s : Series) (i : nat) (x : scalar) :
  s !! i = Some x → pd.read_number x = pd.Missing →
  pd.to_numeric s !! i = Some NA.
Proof.
  intros Hx Hr. destruct (to_numeric_lookup s i x Hx) as [->| ->]; by rewrite Hr.
Qed.

(** A cell that is a number with a fraction makes the column a column of
    floats. *)
Lemma to_numeric_real (s : Series) (i : nat) (x : scalar) (v : float64) :
  s !! i = Some x → pd.read_number x = pd.Real v →
  pd.to_numeric s !! i = Some (Float v).
Proof.
  intros Hx Hr. unfold pd.to_numeric.
  assert (∀ range, pd.all_whole range (pd.read_number <$> s) = false) as Hno.
  { intros range. apply not_true_is_false. intros Hall.
    destruct (all_whole_lookup range _ i (pd.Real v) Hall) as (z & Hz & _); [|done].
    rewrite list_lookup_fmap, Hx. simpl. by rewrite Hr. }
  rewrite !Hno. simpl. rewrite !list_lookup_fmap, Hx. simpl. by rewrite Hr.
Qed.

(** A column of whole numbers of 64 bits is a column of integers. *)
Lemma to_numeric_whole (s : Series) (zs : list Z) :
  pd.read_number <$> s = pd.Whole <$> zs →
  Forall (λ z, pd.in_int64 z = true) zs →
  pd.to_numeric s = Int <$> zs.
Proof.
  intros Hs Hzs. unfold pd.to_numeric. rewrite Hs.
  assert (pd.all_whole pd.in_int64 (pd.Whole <$> zs) = true) as ->.
  { clear Hs. unfold pd.all_whole. induction Hzs as [|z zs Hz _ IH]; [done|].
    rewrite fmap_cons. cbn [forallb]. by rewrite Hz, IH. }
  simpl. by rewrite <- list_fmap_compose.
Qed.

(** The integer conversion, when it gives a column, has cast it cell by
    cell. *)
Lemma astype_Int64_ok (s s' : Series) :
  pd.astype_Int64 s = Ok s' →
  mapM pd.cast_integer s = Ok s' ∨ mapM pd.cast_float s = Ok s'.
Proof.
  unfold pd.astype_Int64. destruct (forallb pd.is_integer s); [by left|].
  destruct (pd.maximum (pd.values s)) as [[m|]|]; [|done|by right].
  destruct (pd.is_whole m); [by right|].
  by destruct (mapM pd.cast_object s).
Qed.

Lemma astype_Int64_length (s s' : Series) :
  pd.astype_Int64 s = Ok s' → length s' = length s.
Proof. intros H. apply astype_Int64_ok in H as [H|H]; by eapply mapM_length. Qed.

Lemma astype_Int64_NA (s s' : Series) (i : nat) :
  pd.astype_Int64 s = Ok s' → s !! i = Some NA → s' !! i = Some NA.
Proof.
  intros H Hi. apply astype_Int64_ok in H as [H|H];
    destruct (mapM_lookup _ _ _ _ _ H Hi) as (y & Hy & ->); by injection Hy as <-.
Qed.

(** A column of integers of 64 bits is kept. *)
Lemma astype_Int64_integers (zs : list Z) :
  Forall (λ z, pd.in_int64 z = true) zs →
  pd.astype_Int64 (Int <$> zs) = Ok (Int <$> zs).
Proof.
  intros Hzs. unfold pd.astype_Int64.
  assert (forallb pd.is_integer (Int <$> zs) = true) as ->.
  { clear Hzs. induction zs as [|z zs IH]; [done|]. exact IH. }
  induction Hzs as [|z zs Hz _ IH]; [done|].
  rewrite fmap_cons. cbn [mapM pd.cast_integer]. rewrite Hz, IH. done.
Qed.

(** The column that a turn of the loop gives has as many cells. *)
Lemma coerce_length (c dt : string) (s s' : Series) :
  coerce c dt s = Ok s' → length s' = length s.
Proof.
  unfold coerce.
  destruct (String.eqb dt "str"); [by intros [= <-]|].
  destruct (String.eqb dt "int").
  { intros H. apply astype_Int64_length in H. by rewrite H, to_numeric_length. }
  destruct (String.eqb dt "float").
  { intros [= <-]. rewrite to_numeric_length.
    destruct (String.eqb c "Valeur fonciere"); [|done].
    unfold pd.str_replace. by rewrite length_fmap. }
  destruct (String.eqb dt "date"); intros [= <-]; [|done].
  unfold pd.to_datetime. by rewrite length_fmap.
Qed.

(** A missing cell stays missing, whatever the type. *)
Lemma coerce_NA (c dt : string) (s s' : Series) (i : nat) :
  coerce c dt s = Ok s' → s !! i = Some NA → s' !! i = Some NA.
Proof.
  unfold coerce. intros H Hi.
  destruct (String.eqb dt "str"); [by injection H as <-|].
  destruct (String.eqb dt "int").
  { eapply astype_Int64_NA; [exact H|]. by apply (to_numeric_missing _ _ NA). }
  destruct (String.eqb dt "float").
  { injection H as <-. apply (to_numeric_missing _ _ NA); [|done].
    destruct (String.eqb c "Valeur fonciere"); [|done].
    unfold pd.str_replace. by rewrite list_lookup_fmap, Hi. }
  destruct (String.eqb dt "date"); injection H as <-; [|done].
  unfold pd.to_datetime. by rewrite list_lookup_fmap, Hi.
Qed.

(** ** The transformer *)

Lemma transformations_nodup : NoDup transformations.*1.
Proof. apply (bool_decide_unpack _). vm_compute. exact I. Qed.

Lemma transformations_known : Forall (λ e, known e.2) transformations.
Proof. repeat constructor; unfold known; simpl; set_solver. Qed.

Lemma typed_known (c dt : string) :
  (c, dt) ∈ transformations → known dt.
Proof.
  intros H. pose proof transformations_known as Hk.
  rewrite Forall_forall in Hk. exact (Hk _ H).
Qed.

Lemma cell_loaded (txt : TextTable) (c : string) (i : nat) :
  pd.cell (pd.replace EmptyString NA (pd.read_csv txt)) c i = loaded <$> pd.cell txt c i.
Proof.
  unfold pd.replace, pd.read_csv. rewrite !cell_map_cells.
  by destruct (pd.cell txt c i).
Qed.

Lemma labels_loaded (txt : TextTable) :
  (pd.replace EmptyString NA (pd.read_csv txt)).*1 = txt.*1.
Proof. unfold pd.replace, pd.read_csv. by rewrite !labels_map_cells. Qed.

Lemma load_labels (txt : TextTable) (out : DataFrame) :
  load_and_transform txt = Ok out → out.*1 = txt.*1.
Proof.
  intros H. apply for_items_labels in H. by rewrite H, labels_loaded.
Qed.

Lemma get_loaded (txt : TextTable) (c : string) :
  pd.get (pd.replace EmptyString NA (pd.read_csv txt)) c
  = match pd.get txt c with
    | Ok s => Ok (loaded <$> s)
    | Raise e => Raise e
    end.
Proof.
  unfold pd.replace, pd.read_csv. rewrite !get_map_cells.
  destruct (pd.get txt c); [|done]. by rewrite <- list_fmap_compose.
Qed.

(** A typed column, in a table that is returned. *)
Lemma load_column (txt : TextTable) (out : DataFrame) (c dt : string) :
  load_and_transform txt = Ok out →
  (c, dt) ∈ transformations →
  ∃ s s', pd.get txt c = Ok s ∧ coerce c dt (loaded <$> s) = Ok s'
          ∧ pd.get out c = Ok s'.
Proof.
  intros Hload Hc.
  apply for_items_ok in Hload as [_ Hin];
    [|apply transformations_nodup|apply transformations_known].
  destruct (Hin c dt Hc) as (s0 & s' & Hg & Hm & Ho).
  rewrite get_loaded in Hg. destruct (pd.get txt c) as [s|]; [|done].
  injection Hg as <-. by exists s, s'.
Qed.

(** A cell of a typed column, in a table that is returned. *)
Lemma load_cell (txt : TextTable) (out : DataFrame) (c dt : string)
    (i : nat) (v : string) :
  load_and_transform txt = Ok out →
  (c, dt) ∈ transformations →
  pd.cell txt c i = Some v →
  ∃ s s', s !! i = Some v ∧ coerce c dt (loaded <$> s) = Ok s'
          ∧ pd.cell out c i = s' !! i.
Proof.
  intros Hload Hc Hv.
  destruct (load_column _ _ _ _ Hload Hc) as (s & s' & Hg & Hm & Ho).
  exists s, s'. unfold pd.cell in *. rewrite Hg in Hv. by rewrite Ho.
Qed.

(** The cells of a [str] column and of a [date] column are converted one
    by one. *)
Lemma load_cell_str (txt : TextTable) (out : DataFrame) (c : string)
    (i : nat) (v : string) :
  load_and_transform txt = Ok out →
  (c, "str") ∈ transformations →
  pd.cell txt c i = Some v →
  pd.cell out c i = Some (loaded v).
Proof.
  intros Hload Hc Hv.
  destruct (load_cell _ _ _ _ _ _ Hload Hc Hv) as (s & s' & Hi & Hm & ->).
  injection Hm as <-. by rewrite list_lookup_fmap, Hi.
Qed.

Lemma load_cell_date (txt : TextTable) (out : DataFrame) (c : string)
    (i : nat) (v : string) :
  load_and_transform txt = Ok out →
  (c, "date") ∈ transformations →
  pd.cell txt c i = Some v →
  pd.cell out c i = Some (pd.to_datetime_cell (loaded v)).
Proof.
  intros Hload Hc Hv.
  destruct (load_cell _ _ _ _ _ _ Hload Hc Hv) as (s & s' & Hi & Hm & ->).
  injection Hm as <-. unfold pd.to_datetime.
  by rewrite !list_lookup_fmap, Hi.
Qed.

Lemma loaded_cases (v : string) :
  (v = EmptyString ∧ loaded v = NA) ∨ (v ≠ EmptyString ∧ loaded v = Str v).
Proof.
  unfold loaded, pd.replace_cell.
  destruct (String.eqb_spec v EmptyString); [by left | by right].
Qed.

(** A cell of a [float] column that is no number, or a number with a
    fraction, is settled by its text alone. *)
Lemma load_cell_float (txt : TextTable) (out : DataFrame) (c : string)
    (i : nat) (v : string) :
  load_and_transform txt = Ok out →
  (c, "float") ∈ transformations →
  pd.cell txt c i = Some v →
  v ≠ EmptyString →
  (pd.read_number (Str (float_text c v)) = pd.Missing →
   pd.cell out c i = Some NA)
  ∧ (∀ x, pd.read_number (Str (float_text c v)) = pd.Real x →
          pd.cell out c i = Some (Float x)).
Proof.
  intros Hload Hc Hv Hne.
  destruct (load_cell _ _ _ _ _ _ Hload Hc Hv) as (s & s' & Hi & Hm & ->).
  injection Hm as <-.
  destruct (loaded_cases v) as [[? _]|[_ Hl]]; [done|].
  assert ((if String.eqb c "Valeur fonciere"
           then pd.str_replace "," "." (loaded <$> s) else loaded <$> s) !! i
          = Some (Str (float_text c v))) as Hcell.
  { unfold float_text. destruct (String.eqb c "Valeur fonciere").
    - unfold pd.str_replace. by rewrite !list_lookup_fmap, Hi; simpl; rewrite Hl.
    - by rewrite list_lookup_fmap, Hi; simpl; rewrite Hl. }
  split.
  - intros Hr. by eapply to_numeric_missing.
  - intros x Hr. by eapply to_numeric_real.
Qed.

(** A cell of any other column, in a table that is returned. *)
Lemma load_other (txt : TextTable) (out : DataFrame) (c : string) (i : nat) :
  load_and_transform txt = Ok out →
  c ∉ transformations.*1 →
  pd.cell out c i = loaded <$> pd.cell txt c i.
Proof.
  intros Hload Hc.
  apply for_items_ok in Hload as [Hother _];
    [|apply transformations_nodup|apply transformations_known].
  rewrite <- cell_loaded. unfold pd.cell. by rewrite (Hother c Hc).
Qed.

(** The two ways [load_and_transform] raises: a typed column is not in
    the file, or the integer conversion refuses a column. *)
Lemma load_raise (txt : TextTable) (e : exn) :
  load_and_transform txt = Raise e →
  (∃ c, c ∈ transformations.*1 ∧ (c ∉ txt.*1) ∧ e = KeyError c)
  ∨ (∃ c s, (c, "int") ∈ transformations ∧ pd.get txt c = Ok s
            ∧ pd.astype_Int64 (pd.to_numeric (loaded <$> s)) = Raise e).
Proof.
  intros H.
  apply for_items_raise in H as [(c & Hc & Hnot & ->)|(c & s0 & Hc & Hg & Hr)];
    [| |apply transformations_nodup|apply transformations_known].
  - left. exists c. by rewrite labels_loaded in Hnot.
  - right. rewrite get_loaded in Hg. destruct (pd.get txt c) as [s|] eqn:Hs; [|done].
    injection Hg as <-. by exists c, s.
Qed.

(** A table is returned for every file that has the typed columns and
    whose integer columns convert. *)
Lemma load_returns (txt : TextTable) :
  (∀ c, c ∈ transformations.*1 → c ∈ txt.*1) →
  (∀ c s, (c, "int") ∈ transformations → pd.get txt c = Ok s →
          ∃ s', pd.astype_Int64 (pd.to_numeric (loaded <$> s)) = Ok s') →
  ∃ out, load_and_transform txt = Ok out.
Proof.
  intros Hcols Hints.
  destruct (load_and_transform txt) as [out|e] eqn:Hload; [eauto|].
  apply load_raise in Hload as [(c & Hc & Hnot & _)|(c & s & Hc & Hs & Hr)].
  - destruct Hnot. by apply Hcols.
  - destruct (Hints c s Hc Hs) as [s' Hs']. congruence.
Qed.

(** Text that is no number and no date gives a missing cell, in a table
    that is returned. *)
Lemma unparsed_is_null (txt : TextTable) (out : DataFrame) (c dt : string)
    (i : nat) (v : string) :
  load_and_transform txt = Ok out →
  (c, dt) ∈ transformations →
  pd.cell txt c i = Some v →
  (dt = "int" → pd.parse_number v = None → pd.cell out c i = Some NA)
  ∧ (dt = "float" → pd.parse_number (float_text c v) = None →
     pd.cell out c i = Some NA)
  ∧ (dt = "date" → pd.strptime v = None → pd.cell out c i = Some NA).
Proof.
  intros Hload Hc Hv. split; [|split]; intros -> Hp.
  - destruct (load_cell _ _ _ _ _ _ Hload Hc Hv) as (s & s' & Hi & Hm & ->).
    eapply astype_Int64_NA; [exact Hm|].
    apply (to_numeric_missing _ _ (loaded v)); [by rewrite list_lookup_fmap, Hi|].
    destruct (loaded_cases v) as [[_ ->]|[_ ->]]; [done|]. simpl. by rewrite Hp.
  - destruct (loaded_cases v) as [[-> _]|[Hne _]].
    + destruct (load_cell _ _ _ _ _ _ Hload Hc Hv) as (s & s' & Hi & Hm & ->).
      eapply coerce_NA; [exact Hm|]. by rewrite list_lookup_fmap, Hi.
    + apply (load_cell_float _ _ _ _ _ Hload Hc Hv Hne). simpl. by rewrite Hp.
  - rewrite (load_cell_date _ _ _ _ _ Hload Hc Hv).
    destruct (loaded_cases v) as [[_ ->]|[_ ->]]; [done|]. simpl. by rewrite Hp.
Qed.

Lemma load_sample : load_and_transform Sample.txt = Ok Sample.frame.
Proof. vm_compute. reflexivity. Qed.

(** ** Columns of numbers: what the type of the column does *)

(** Whole numbers alone make a column of integers, also in a [float]
    column; one empty field makes it a column of floats. *)
Example to_numeric_integers :
  pd.to_numeric [Str "250"; Str "-3"] = [Int 250; Int (-3)]
  ∧ pd.to_numeric [Str "250"; NA] = [Float (Finite 250); NA]
  ∧ pd.to_numeric [Str "250"; Str "abc"] = [Float (Finite 250); NA].
Proof. repeat split; vm_compute; reflexivity. Qed.

(** In a column of floats a whole number is rounded to binary64:
    [2 ^ 53 + 1] becomes [2 ^ 53]. *)
Example to_numeric_rounds :
  pd.to_numeric [Str "9007199254740993"; NA]
  = [Float (Finite 9007199254740992); NA]
  ∧ pd.astype_Int64 (pd.to_numeric [Str "9007199254740993"; NA])
    = Ok [Int 9007199254740992; NA]
  ∧ pd.astype_Int64 (pd.to_numeric [Str "9007199254740993"])
    = Ok [Int 9007199254740993].
Proof. repeat split; vm_compute; reflexivity. Qed.

(** The largest integer of 64 bits is kept when it stands alone, and
    refused next to an empty field, where it is rounded to [2 ^ 63]. *)
Example astype_Int64_largest :
  pd.astype_Int64 (pd.to_numeric [Str "9223372036854775807"])
  = Ok [Int 9223372036854775807]
  ∧ pd.astype_Int64 (pd.to_numeric [Str "9223372036854775807"; NA])
    = Raise (TypeError "cannot safely cast non-equivalent float64 to int64").
Proof. split; vm_compute; reflexivity. Qed.

(** The three ways the integer conversion refuses a column: a fraction,
    an infinity, an integer beyond 64 bits. *)
Example astype_Int64_refuses :
  pd.astype_Int64 (pd.to_numeric [Str "1.5"])
  = Raise (TypeError "cannot safely cast non-equivalent object to int64")
  ∧ pd.astype_Int64 (pd.to_numeric [Str "inf"])
    = Raise (OverflowError "cannot convert float infinity to integer")
  ∧ pd.astype_Int64 (pd.to_numeric [Str "9223372036854775808"])
    = Raise (TypeError "cannot safely cast non-equivalent uint64 to int64").
Proof. repeat split; vm_compute; reflexivity. Qed.

(** A number that binary64 rounds to a whole number is one: the
    conversion does not see the digits that rounding drops. *)
Example astype_Int64_after_rounding :
  pd.astype_Int64 (pd.to_numeric [Str "1.00000000000000000001"]) = Ok [Int 1].
Proof. vm_compute. reflexivity. Qed.

(** ** Dates written out and read back *)

Lemma digit_chr (k : Z) :
  0 ≤ k ≤ 9 →
  pd.digit (chr k) = Some k ∧ Ascii.eqb (chr k) "/" = false
  ∧ Ascii.eqb (chr k) " " = false.
Proof.
  intros H.
  assert (k = 0 ∨ k = 1 ∨ k = 2 ∨ k = 3 ∨ k = 4 ∨ k = 5 ∨ k = 6 ∨ k = 7
          ∨ k = 8 ∨ k = 9) as Hk by lia.
  repeat (destruct Hk as [->|Hk]); [..|subst k]; by vm_compute.
Qed.

Local Ltac divlia := Z.div_mod_to_equations; lia.

(** Membership in a list that is written out. *)
Local Ltac in_table := apply (bool_decide_unpack _); vm_compute; exact I.

Lemma split_at_two (a b : ascii) (rest : string) :
  Ascii.eqb a "/" = false → Ascii.eqb b "/" = false →
  pd.split_at "/" (String a (String b EmptyString) +:+ "/" +:+ rest)
  = Some (String a (String b EmptyString), rest).
Proof.
  intros Ha Hb.
  change (pd.split_at "/" (String a (String b (String "/" rest)))
          = Some (String a (String b EmptyString), rest)).
  cbn [pd.split_at]. by rewrite Ha, Hb.
Qed.

Lemma strptime_strftime (y m d : Z) :
  0 ≤ y ≤ 9999 → 1 ≤ m ≤ 12 → 1 ≤ d ≤ 31 →
  pd.strptime (strftime y m d) = Some (y, m, d).
Proof.
  intros Hy Hm Hd. unfold strftime, four, two, pd.strptime.
  destruct (digit_chr (d / 10)) as (Hd1 & Hd1' & Hd1''); [divlia|].
  destruct (digit_chr (d mod 10)) as (Hd2 & Hd2' & _); [divlia|].
  destruct (digit_chr (m / 10)) as (Hm1 & Hm1' & _); [divlia|].
  destruct (digit_chr (m mod 10)) as (Hm2 & Hm2' & _); [divlia|].
  destruct (digit_chr (y / 1000)) as (Hy1 & _); [divlia|].
  destruct (digit_chr (y / 100 mod 10)) as (Hy2 & _); [divlia|].
  destruct (digit_chr (y mod 100 / 10)) as (Hy3 & _); [divlia|].
  destruct (digit_chr (y mod 100 mod 10)) as (Hy4 & _); [divlia|].
  rewrite split_at_two by done. cbn [mbind option_bind].
  rewrite split_at_two by done.
  cbn [mbind option_bind pd.day_field pd.month_field pd.year_field].
  rewrite Hd1'', Hd1, Hd2, Hm1, Hm2, Hy1, Hy2, Hy3, Hy4.
  cbn [mbind option_bind]. unfold pd.between.
  replace (10 * (d / 10) + d mod 10) with d by divlia.
  replace (10 * (m / 10) + m mod 10) with m by divlia.
  replace (1000 * (y / 1000) + 100 * (y / 100 mod 10) + 10 * (y mod 100 / 10)
           + y mod 100 mod 10) with y by divlia.
  replace ((1 <=? d) && (d <=? 31)) with true by divlia.
  replace ((1 <=? m) && (m <=? 12)) with true by divlia.
  done.
Qed.

(** ** The decimal comma *)

(** Python's replacement of the comma by the point is the change of every
    comma into a point. *)
Lemma replace_comma (s : string) : Py.replace "," "." s = comma_to_point s.
Proof.
  unfold Py.replace. induction s as [|c s IH]; [done|].
  cbn [Py.replace_from comma_to_point].
  destruct (String.prefix "," (String c s)) eqn:Hp.
  - apply prefix_spec in Hp as [b Hb]. injection Hb as -> _.
    change (String.length "," - 1)%nat with 0%nat. rewrite IH. done.
  - rewrite IH. f_equal.
    destruct (Ascii.eqb_spec c ",") as [->|_]; [|done].
    assert (String.prefix "," (String "," s) = true) as Ht
      by (apply prefix_spec; by exists s).
    congruence.
Qed.

Lemma comma_to_point_loaded (v : string) :
  pd.str_replace_cell "," "." (loaded v) = loaded (comma_to_point v).
Proof.
  destruct (loaded_cases v) as [[-> ->]|[Hne ->]]; [done|].
  simpl. rewrite replace_comma. destruct v as [|c v]; [done|]. done.
Qed.

Lemma str_replace_loaded (vs : list string) :
  pd.str_replace "," "." (loaded <$> vs) = loaded <$> (comma_to_point <$> vs).
Proof.
  unfold pd.str_replace. rewrite <- !list_fmap_compose.
  apply list_fmap_ext. intros i v _. apply comma_to_point_loaded.
Qed.

(** ** The format of a date *)

Lemma digit_inv (a : ascii) (k : Z) :
  pd.digit a = Some k → a = chr k ∧ 0 ≤ k ≤ 9.
Proof.
  destruct a as [[] [] [] [] [] [] [] []]; vm_compute; intros H;
    try discriminate H; injection H as <-; (split; [reflexivity|]);
    split; discriminate.
Qed.

Lemma split_at_sound (sep : ascii) (s a b : string) :
  pd.split_at sep s = Some (a, b) → s = a +:+ String sep b.
Proof.
  revert a. induction s as [|c s IH]; intros a; simpl; [done|].
  destruct (Ascii.eqb_spec c sep) as [->|_].
  - by intros [= <- <-].
  - destruct (pd.split_at sep s) as [[a' b']|]; [|done].
    intros [= <- <-]. simpl. by rewrite (IH a' eq_refl).
Qed.

Lemma split_at_complete (sep : ascii) (a b : string) :
  string_forall (λ c, negb (Ascii.eqb c sep)) a = true →
  pd.split_at sep (a +:+ String sep b) = Some (a, b).
Proof.
  induction a as [|c a IH]; simpl.
  - intros _. by rewrite Ascii.eqb_refl.
  - intros H. apply andb_true_iff in H as [Hc Ha].
    apply negb_true_iff in Hc. by rewrite Hc, (IH Ha).
Qed.

Lemma day_field_spec (t : string) (d : Z) :
  pd.day_field t = Some d ↔ day_text t d.
Proof.
  unfold day_text, two, one. split.
  - destruct t as [|a [|b [|]]]; simpl; try done.
    + destruct (pd.digit a) as [k|] eqn:Ha; [|done]. simpl. unfold pd.between.
      destruct ((1 <=? k) && (k <=? 9)) eqn:E; [|done]. intros [= <-].
      apply digit_inv in Ha as [-> _]. split; [lia|]. right. split; [lia|]. by left.
    + destruct (Ascii.eqb_spec a " ") as [->|Hsp].
      * destruct (pd.digit b) as [k|] eqn:Hb; [|done]. simpl. unfold pd.between.
        destruct ((1 <=? k) && (k <=? 9)) eqn:E; [|done]. intros [= <-].
        apply digit_inv in Hb as [-> _]. split; [lia|]. right. split; [lia|]. by right.
      * destruct (pd.digit a) as [x|] eqn:Ha; [|done].
        destruct (pd.digit b) as [y|] eqn:Hb; [|done]. simpl. unfold pd.between.
        destruct ((1 <=? 10 * x + y) && (10 * x + y <=? 31)) eqn:E; [|done].
        intros [= <-].
        apply digit_inv in Ha as [-> Hx]. apply digit_inv in Hb as [-> Hy].
        split; [lia|]. left.
        replace ((10 * x + y) / 10) with x by divlia.
        by replace ((10 * x + y) mod 10) with y by divlia.
  - intros [Hd [->|[H9 [->| ->]]]].
    + destruct (digit_chr (d / 10)) as (H1 & _ & H1'); [divlia|].
      destruct (digit_chr (d mod 10)) as (H2 & _); [divlia|].
      simpl. rewrite H1', H1, H2. simpl. unfold pd.between.
      replace (10 * (d / 10) + d mod 10) with d by divlia.
      by replace ((1 <=? d) && (d <=? 31)) with true by lia.
    + destruct (digit_chr d) as (H1 & _); [lia|].
      simpl. rewrite H1. simpl. unfold pd.between.
      by replace ((1 <=? d) && (d <=? 9)) with true by lia.
    + destruct (digit_chr d) as (H1 & _); [lia|].
      simpl. rewrite H1. simpl. unfold pd.between.
      by replace ((1 <=? d) && (d <=? 9)) with true by lia.
Qed.

Lemma month_field_spec (t : string) (m : Z) :
  pd.month_field t = Some m ↔ month_text t m.
Proof.
  unfold month_text, two, one. split.
  - destruct t as [|a [|b [|]]]; simpl; try done.
    + destruct (pd.digit a) as [k|] eqn:Ha; [|done]. simpl. unfold pd.between.
      destruct ((1 <=? k) && (k <=? 9)) eqn:E; [|done]. intros [= <-].
      apply digit_inv in Ha as [-> _]. split; [lia|]. right. split; [lia|done].
    + destruct (pd.digit a) as [x|] eqn:Ha; [|done].
      destruct (pd.digit b) as [y|] eqn:Hb; [|done]. simpl. unfold pd.between.
      destruct ((1 <=? 10 * x + y) && (10 * x + y <=? 12)) eqn:E; [|done].
      intros [= <-].
      apply digit_inv in Ha as [-> Hx]. apply digit_inv in Hb as [-> Hy].
      split; [lia|]. left.
      replace ((10 * x + y) / 10) with x by divlia.
      by replace ((10 * x + y) mod 10) with y by divlia.
  - intros [Hm [->|[H9 ->]]].
    + destruct (digit_chr (m / 10)) as (H1 & _); [divlia|].
      destruct (digit_chr (m mod 10)) as (H2 & _); [divlia|].
      simpl. rewrite H1, H2. simpl. unfold pd.between.
      replace (10 * (m / 10) + m mod 10) with m by divlia.
      by replace ((1 <=? m) && (m <=? 12)) with true by lia.
    + destruct (digit_chr m) as (H1 & _); [lia|].
      simpl. rewrite H1. simpl. unfold pd.between.
      by replace ((1 <=? m) && (m <=? 9)) with true by lia.
Qed.

Lemma year_field_spec (t : string) (y : Z) :
  pd.year_field t = Some y ↔ year_text t y.
Proof.
  unfold year_text, four, two. split.
  - destruct t as [|a [|b [|c [|d [|]]]]]; simpl; try done.
    destruct (pd.digit a) as [w|] eqn:Ha; [|done].
    destruct (pd.digit b) as [x|] eqn:Hb; [|done].
    destruct (pd.digit c) as [u|] eqn:Hc; [|done].
    destruct (pd.digit d) as [z|] eqn:Hd; [|done]. simpl. intros [= <-].
    apply digit_inv in Ha as [-> Hw]. apply digit_inv in Hb as [-> Hx].
    apply digit_inv in Hc as [-> Hu]. apply digit_inv in Hd as [-> Hz].
    split; [lia|].
    replace ((1000 * w + 100 * x + 10 * u + z) / 1000) with w by divlia.
    replace ((1000 * w + 100 * x + 10 * u + z) / 100 mod 10) with x by divlia.
    replace ((1000 * w + 100 * x + 10 * u + z) mod 100 / 10) with u by divlia.
    by replace ((1000 * w + 100 * x + 10 * u + z) mod 100 mod 10) with z by divlia.
  - intros [Hy ->].
    destruct (digit_chr (y / 1000)) as (H1 & _); [divlia|].
    destruct (digit_chr (y / 100 mod 10)) as (H2 & _); [divlia|].
    destruct (digit_chr (y mod 100 / 10)) as (H3 & _); [divlia|].
    destruct (digit_chr (y mod 100 mod 10)) as (H4 & _); [divlia|].
    simpl. rewrite H1, H2, H3, H4. simpl. f_equal. divlia.
Qed.

Lemma string_forall_app (P : ascii → bool) (a b : string) :
  string_forall P (a +:+ b) = string_forall P a && string_forall P b.
Proof. induction a as [|c a IH]; [done|]. simpl. by rewrite IH, andb_assoc. Qed.

Lemma digit_date_char (k : Z) :
  0 ≤ k ≤ 9 → is_digit (chr k) = true.
Proof.
  intros Hk. unfold is_digit. by destruct (digit_chr k Hk) as (-> & _).
Qed.

(** The texts of a day, a month and a year are made of digits and blanks. *)
Lemma day_text_chars (t : string) (d : Z) :
  day_text t d →
  string_forall (λ c, negb (Ascii.eqb c "/")) t = true
  ∧ string_forall (λ c, is_digit c || Ascii.eqb c " ") t = true.
Proof.
  unfold two, one. intros [Hd [->|[H9 [->| ->]]]]; simpl.
  - destruct (digit_chr (d / 10)) as (_ & -> & _); [divlia|].
    destruct (digit_chr (d mod 10)) as (_ & -> & _); [divlia|].
    by rewrite !digit_date_char by divlia.
  - destruct (digit_chr d) as (_ & -> & _); [lia|].
    by rewrite !digit_date_char by lia.
  - destruct (digit_chr d) as (_ & -> & _); [lia|].
    by rewrite !digit_date_char by lia.
Qed.

Lemma month_text_chars (t : string) (m : Z) :
  month_text t m →
  string_forall (λ c, negb (Ascii.eqb c "/")) t = true
  ∧ string_forall is_digit t = true.
Proof.
  unfold two, one. intros [Hm [->|[H9 ->]]]; simpl.
  - destruct (digit_chr (m / 10)) as (_ & -> & _); [divlia|].
    destruct (digit_chr (m mod 10)) as (_ & -> & _); [divlia|].
    by rewrite !digit_date_char by divlia.
  - destruct (digit_chr m) as (_ & -> & _); [lia|].
    by rewrite !digit_date_char by lia.
Qed.

Lemma year_text_chars (t : string) (y : Z) :
  year_text t y → string_forall is_digit t = true.
Proof.
  unfold four, two. intros [Hy ->]. simpl.
  by rewrite !digit_date_char by divlia.
Qed.

(** The reader of dates takes the texts of the format, and no other. *)
Lemma strptime_spec (v : string) (y m d : Z) :
  pd.strptime v = Some (y, m, d) ↔ day_month_year v y m d.
Proof.
  unfold pd.strptime, day_month_year. split.
  - destruct (pd.split_at "/" v) as [[ds s1]|] eqn:H1; [|done]. simpl.
    destruct (pd.split_at "/" s1) as [[ms ys]|] eqn:H2; [|done]. simpl.
    destruct (pd.day_field ds) as [d'|] eqn:Hd; [|done]. simpl.
    destruct (pd.month_field ms) as [m'|] eqn:Hm; [|done]. simpl.
    destruct (pd.year_field ys) as [y'|] eqn:Hy; [|done]. simpl.
    intros [= -> -> ->]. exists ds, ms, ys.
    apply split_at_sound in H1, H2. subst.
    by rewrite <- day_field_spec, <- month_field_spec, <- year_field_spec.
  - intros (ds & ms & ys & -> & Hd & Hm & Hy).
    change ("/" +:+ ms +:+ "/" +:+ ys) with (String "/" (ms +:+ String "/" ys)).
    rewrite split_at_complete by apply (day_text_chars _ _ Hd). simpl.
    rewrite split_at_complete by apply (month_text_chars _ _ Hm). simpl.
    apply day_field_spec in Hd. apply month_field_spec in Hm.
    apply year_field_spec in Hy. by rewrite Hd, Hm, Hy.
Qed.

(** A text of the format is made of digits, strokes and blanks. *)
Lemma day_month_year_chars (v : string) (y m d : Z) :
  day_month_year v y m d → string_forall date_char v = true.
Proof.
  intros (ds & ms & ys & -> & Hd & Hm & Hy).
  assert (∀ P t, (∀ c, P c = true → date_char c = true) →
                 string_forall P t = true → string_forall date_char t = true)
    as Hweak.
  { intros P t HP. induction t as [|c t IH]; [done|]. simpl.
    intros H. apply andb_true_iff in H as [Hc Ht]. by rewrite (HP c Hc), IH. }
  change ("/" +:+ ms +:+ "/" +:+ ys) with (String "/" (ms +:+ String "/" ys)).
  rewrite string_forall_app. cbn [string_forall].
  rewrite string_forall_app. cbn [string_forall].
  assert (string_forall date_char ds = true) as ->.
  { apply (Hweak (λ c, is_digit c || Ascii.eqb c " "));
      [|apply (day_text_chars _ _ Hd)].
    unfold date_char. intros c Hc.
    apply orb_true_iff in Hc as [-> | ->]; by rewrite ?orb_true_r. }
  assert (string_forall date_char ms = true) as ->.
  { apply (Hweak is_digit); [|apply (month_text_chars _ _ Hm)].
    unfold date_char. by intros c ->. }
  assert (string_forall date_char ys = true) as ->.
  { apply (Hweak is_digit); [|apply (year_text_chars _ _ Hy)].
    unfold date_char. by intros c ->. }
  done.
Qed.





(** ** Texts that are no numbers *)

Lemma skip_spaces_comma (s : string) :
  no_comma (pd.skip_spaces s) = no_comma s.
Proof.
  unfold no_comma. induction s as [|c s IH]; [done|]. simpl.
  destruct (pd.is_space c) eqn:Hc; [|done]. rewrite IH.
  destruct (Ascii.eqb_spec c ",") as [->|_]; [done|done].
Qed.

Lemma sign_comma (s : string) : no_comma (pd.sign s).2 = no_comma s.
Proof.
  unfold pd.sign. destruct s as [|c s]; [done|].
  destruct c as [[] [] [] [] [] [] [] []]; reflexivity.
Qed.

Lemma digits_comma (acc : Z) (count : nat) (s : string) :
  no_comma (pd.digits acc count s).2 = no_comma s.
Proof.
  unfold no_comma. revert acc count. induction s as [|c s IH]; intros acc count; [done|].
  simpl. destruct (pd.digit c) as [d|] eqn:Hd; [|done].
  rewrite IH. destruct (Ascii.eqb_spec c ",") as [->|_]; [done|done].
Qed.

Lemma lowercase_comma (s : string) : no_comma (pd.lowercase s) = no_comma s.
Proof.
  unfold no_comma. induction s as [|c s IH]; [done|]. simpl. rewrite IH.
  f_equal. destruct c as [[] [] [] [] [] [] [] []]; reflexivity.
Qed.

(** A text with a comma is read as no number. *)
Lemma comma_is_no_number (v : string) :
  no_comma v = false → pd.parse_number v = None.
Proof.
  intros Hv. unfold pd.parse_number.
  assert (pd.parse_decimal v = None) as ->.
  { unfold pd.parse_decimal.
    pose proof (sign_comma (pd.skip_spaces v)) as H1.
    rewrite skip_spaces_comma, Hv in H1.
    destruct (pd.sign (pd.skip_spaces v)) as [neg s1]. simpl in H1.
    pose proof (digits_comma 0 0 s1) as H2. rewrite H1 in H2.
    destruct (pd.digits 0 0 s1) as [[m1 n1] s2]. simpl in H2.
    assert (∀ r : Z * nat * string,
              r = match s2 with
                  | String "." rest => pd.digits m1 n1 rest
                  | _ => (m1, n1, s2)
                  end → no_comma r.2 = false) as H3.
    { intros r ->. destruct s2 as [|c rest]; [done|].
      destruct (Ascii.eqb_spec c ".") as [->|Hne].
      - by rewrite digits_comma.
      - destruct c as [[] [] [] [] [] [] [] []]; try done. }
    specialize (H3 _ eq_refl).
    destruct (match s2 with
              | String "." rest => pd.digits m1 n1 rest
              | _ => (m1, n1, s2)
              end) as [[m2 n2] s3]. simpl in H3.
    destruct (bool_decide (n2 = 0%nat)); [done|].
    assert (∀ r : Z * string,
              r = match s3 with
                  | String c rest =>
                      if bool_decide (pd.lower c = "e"%char) then
                        let '(eneg, s4) := pd.sign rest in
                        let '(x, nx, s5) := pd.digits 0 0 s4 in
                        if bool_decide (nx = 0%nat) then (0, s3)
                        else (if eneg then - x else x, s5)
                      else (0, s3)
                  | EmptyString => (0, s3)
                  end → no_comma r.2 = false) as H4.
    { intros r ->. destruct s3 as [|c rest]; [done|].
      destruct (bool_decide (pd.lower c = "e"%char)) eqn:He; [|done].
      assert (no_comma rest = false) as Hrest.
      { unfold no_comma in *. simpl in H3.
        destruct (Ascii.eqb_spec c ",") as [->|_]; [done|done]. }
      pose proof (sign_comma rest) as H5. rewrite Hrest in H5.
      destruct (pd.sign rest) as [eneg s4]. simpl in H5.
      pose proof (digits_comma 0 0 s4) as H6. rewrite H5 in H6.
      destruct (pd.digits 0 0 s4) as [[x nx] s5]. simpl in H6.
      by destruct (bool_decide (nx = 0%nat)). }
    specialize (H4 _ eq_refl).
    destruct (match s3 with
              | String c rest => _
              | EmptyString => (0, s3)
              end) as [e s5]. simpl in H4.
    rewrite <- skip_spaces_comma in H4.
    by destruct (pd.skip_spaces s5). }
  unfold pd.parse_infinity.
  pose proof (sign_comma v) as H1. rewrite Hv in H1.
  destruct (pd.sign v) as [neg s1]. simpl in H1.
  rewrite <- lowercase_comma in H1.
  destruct (String.eqb_spec (pd.lowercase s1) "inf") as [E|_];
    [by rewrite E in H1|].
  destruct (String.eqb_spec (pd.lowercase s1) "infinity") as [E|_];
    [by rewrite E in H1|]. done.
Qed.

Lemma comma_is_no_date (v : string) :
  no_comma v = false → pd.strptime v = None.
Proof.
  intros Hv. destruct (pd.strptime v) as [[[y m] d]|] eqn:Hs; [|done].
  apply strptime_spec, day_month_year_chars in Hs.
  assert (no_comma v = true); [|congruence].
  unfold no_comma. clear Hv. induction v as [|c v IH]; [done|].
  simpl in *. apply andb_true_iff in Hs as [Hc Hs]. rewrite (IH Hs), andb_true_r.
  destruct c as [[] [] [] [] [] [] [] []]; done.
Qed.

(** * The claims of the specification *)

(** ** The resource locator *)

(** C3.  [get_resource_url] scans the resources in list order and returns
    the URL of the first one whose title contains [str(year)] and whose
    format is [txt.zip]; the resources before it, which miss one criterion
    or both, are passed over.  When no resource meets both criteria it
    raises [ValueError] with the message [No data found for year ...].
    The request is assumed to be answered without an HTTP error, and the
    resource found to have a [url]. *)
Theorem get_resource_url_first_match
    (requests_get : string → list (string * string) → Response)
    (dataset_id : string) (year : Z) (resources : list obj) :
  let response :=
    requests_get
      ("https://www.data.gouv.fr/api/1/datasets/" +:+ dataset_id +:+ "/") [] in
  raise_for_status response = Ok tt →
  default [] (json response !! "resources") = resources →
  (∀ pre r post url,
     resources = pre ++ r :: post →
     Forall (λ x, ¬ both_criteria year x) pre →
     both_criteria year r →
     r !! "url" = Some url →
     get_resource_url requests_get dataset_id year = Ok url)
  ∧ (Forall (λ x, ¬ both_criteria year x) resources →
     get_resource_url requests_get dataset_id year
     = Raise (ValueError ("No data found for year " +:+ Py.str year))).
Proof.
  intros response Hstatus Hres. unfold get_resource_url.
  fold response. rewrite Hstatus, Hres. simpl. split.
  - intros pre r post url -> Hpre Hr Hurl.
    rewrite scan_resources_skip by done. simpl.
    apply resource_matches_spec in Hr as Hm. rewrite Hm.
    rewrite (truthy_has_key r "url" url Hurl). simpl.
    unfold getitem. by rewrite Hurl.
  - intros Hall.
    rewrite <- (app_nil_r resources), scan_resources_skip by done.
    done.
Qed.

(** The fourth of five resources is found for 2023, after one with the
    year and another format, one with the format and another year, and one
    without a title; none is found for 2021. *)
Lemma get_resource_url_first_match_witness :
  let net := Sample.network {[ "resources" := Sample.resources ]} in
  get_resource_url net "5c4ae55a" 2023 = Ok "https://files/vf-2023.zip"
  ∧ get_resource_url net "5c4ae55a" 2021
    = Raise (ValueError "No data found for year 2021").
Proof.
  intros net. split.
  - refine (proj1 (get_resource_url_first_match net "5c4ae55a" 2023
                     Sample.resources eq_refl eq_refl)
              (take 3 Sample.resources) _ (drop 4 Sample.resources) _
              eq_refl _ _ eq_refl).
    + repeat constructor; apply resource_matches_not; reflexivity.
    + apply resource_matches_spec. reflexivity.
  - refine (proj2 (get_resource_url_first_match net "5c4ae55a" 2021
                     Sample.resources eq_refl eq_refl) _).
    repeat constructor; apply resource_matches_not; reflexivity.
Defined.

(** ** The dataset resolver *)

(** C4, as amended.  On a page whose entries carry titles,
    [search_dvf_dataset] returns the [id] of the first entry whose title
    is exactly [DVF_TITLE]: the entries before it have a title, and
    another one.  An id it returns is the id of an entry with that title,
    and of no other.  When every entry of the page has a title, and
    another one, it raises [ValueError] with the message
    [DVF dataset not found], whatever the network would answer to any
    other request: one page is asked for and no more.  The request is
    assumed to be answered without an HTTP error, and the entry found to
    have an [id]. *)
Theorem search_dvf_dataset_exact_title
    (requests_get : string → list (string * string) → Response)
    (datasets : list obj) :
  let response :=
    requests_get "https://www.data.gouv.fr/api/1/datasets/"
      [("q", "demandes valeurs foncieres"); ("page_size", "10")] in
  raise_for_status response = Ok tt →
  default [] (json response !! "data") = datasets →
  (∀ pre d post id,
     datasets = pre ++ d :: post →
     Forall other_title pre →
     d !! "title" = Some DVF_TITLE →
     d !! "id" = Some id →
     search_dvf_dataset requests_get = Ok id)
  ∧ (Forall other_title datasets →
     search_dvf_dataset requests_get = Raise (ValueError "DVF dataset not found"))
  ∧ (∀ id,
     search_dvf_dataset requests_get = Ok id →
     ∃ d, d ∈ datasets ∧ d !! "title" = Some DVF_TITLE ∧ d !! "id" = Some id).
Proof.
  intros response Hstatus Hdata. unfold search_dvf_dataset.
  fold response. rewrite Hstatus, Hdata. simpl. split; [|split].
  - intros pre d post id -> Hpre Htitle Hid.
    rewrite next_with_title_skip, next_with_title_hit by done.
    cbn [mbind result_bind].
    rewrite (truthy_has_key d "id" id Hid). simpl.
    unfold getitem. by rewrite Hid.
  - intros Hall.
    rewrite <- (app_nil_r datasets), next_with_title_skip by done.
    done.
  - intros id. destruct (next_with_title datasets) as [[d|]|e] eqn:Hnext;
      simpl; [|done..].
    apply next_with_title_found in Hnext as [Hin Htitle].
    destruct (negb (negb (bool_decide (d = ∅)))); [done|].
    unfold getitem. destruct (d !! "id") as [i|] eqn:Hid; [|done].
    intros [= ->]. by exists d.
Qed.

(** The second of three entries has the title; the first has a longer
    title, the third differs in case. *)
Lemma search_dvf_dataset_exact_title_witness :
  search_dvf_dataset (Sample.network {[ "data" := Sample.datasets ]}) = Ok "b2"
  ∧ search_dvf_dataset (Sample.network {[ "data" := take 1 Sample.datasets ]})
    = Raise (ValueError "DVF dataset not found").
Proof.
  split.
  - refine (proj1 (search_dvf_dataset_exact_title
                     (Sample.network {[ "data" := Sample.datasets ]})
                     Sample.datasets eq_refl eq_refl)
              (take 1 Sample.datasets) _ (drop 2 Sample.datasets) _
              eq_refl _ eq_refl eq_refl).
    repeat constructor. eexists. split; [reflexivity | discriminate].
  - refine (proj1 (proj2 (search_dvf_dataset_exact_title
                     (Sample.network {[ "data" := take 1 Sample.datasets ]})
                     (take 1 Sample.datasets) eq_refl eq_refl)) _).
    repeat constructor. eexists. split; [reflexivity | discriminate].
Defined.

(** C4, as stated: an entry without a title makes the search raise
    [KeyError], on a page that has the entry looked for after it (its id
    is not returned), and on a page that has it not (the error is not
    that the dataset is not found). *)
Lemma search_dvf_dataset_untitled_entry :
  (∃ d, d ∈ More.datasets_untitled ∧ d !! "title" = Some DVF_TITLE
        ∧ d !! "id" = Some "b2")
  ∧ search_dvf_dataset (Sample.network {[ "data" := More.datasets_untitled ]})
    = Raise (KeyError "title")
  ∧ (∀ d, d ∈ More.datasets_unfound → d !! "title" ≠ Some DVF_TITLE)
  ∧ search_dvf_dataset (Sample.network {[ "data" := More.datasets_unfound ]})
    = Raise (KeyError "title").
Proof.
  split; [|split; [reflexivity|split; [|reflexivity]]].
  - exists {[ "id" := "b2"; "title" := DVF_TITLE ]}.
    split; [|split; reflexivity].
    apply list_elem_of_lookup. by exists 2%nat.
  - intros d Hd. unfold More.datasets_unfound, More.datasets_untitled,
      Sample.datasets in Hd. simpl in Hd.
    apply elem_of_cons in Hd as [->|Hd]; [done|].
    apply list_elem_of_singleton in Hd as ->. done.
Qed.

(** ** The table of types *)

(** C2, as amended.  The table names fifteen columns, each once, and gives
    each one of the four semantic types [int], [float], [date], [str]. *)
Theorem transformations_fifteen_columns :
  length transformations = 15%nat
  ∧ NoDup transformations.*1
  ∧ Forall (λ e, e.2 ∈ ["int"; "float"; "date"; "str"]) transformations.
Proof.
  split; [reflexivity|]. split; [apply transformations_nodup|].
  apply transformations_known.
Qed.

(** C2, as stated: the table does not name seventeen columns. *)
Lemma transformations_not_seventeen_columns :
  length transformations ≠ 17%nat.
Proof. discriminate. Qed.

(** ** Empty fields *)

(** C5.  Before any conversion every empty field, in every column, has
    become the missing marker; and in a table that [load_and_transform]
    returns, an empty field of a typed column is missing, whatever the
    type of the column. *)
Theorem empty_field_is_null :
  (∀ (txt : TextTable) (c : string) (i : nat),
     pd.cell txt c i = Some EmptyString →
     pd.cell (pd.replace EmptyString NA (pd.read_csv txt)) c i = Some NA)
  ∧ (∀ (txt : TextTable) (out : DataFrame) (c dt : string) (i : nat),
       load_and_transform txt = Ok out →
       (c, dt) ∈ transformations →
       pd.cell txt c i = Some EmptyString →
       pd.cell out c i = Some NA).
Proof.
  split.
  - intros txt c i H. by rewrite cell_loaded, H.
  - intros txt out c dt i Hload Hc Hv.
    destruct (load_cell _ _ _ _ _ _ Hload Hc Hv) as (s & s' & Hi & Hm & ->).
    eapply coerce_NA; [exact Hm|]. by rewrite list_lookup_fmap, Hi.
Qed.

(** The empty field of [Commune] after the replacement, and the empty field
    of the [str] column [Code type local] in the table returned. *)
Lemma empty_field_is_null_witness :
  pd.cell (pd.replace EmptyString NA (pd.read_csv Sample.txt)) "Commune" 0 = Some NA
  ∧ pd.cell Sample.frame "Code type local" 0 = Some NA.
Proof.
  split.
  - apply (proj1 empty_field_is_null Sample.txt "Commune" 0%nat). reflexivity.
  - apply (proj2 empty_field_is_null Sample.txt Sample.frame "Code type local" "str" 0%nat).
    + apply load_sample.
    + in_table.
    + reflexivity.
Defined.

(** ** Numbers *)

(** C1.  A fraction in an integer column is no whole number, yet it is not
    turned into a missing cell: [pd.to_numeric] reads [1.5] as a number,
    [astype("Int64")] refuses it, and [load_and_transform] raises
    [TypeError]. *)
Theorem fraction_in_integer_column_raises :
  ("Nombre de lots", "int") ∈ transformations
  ∧ pd.cell Sample.txt_fraction "Nombre de lots" 0 = Some "1.5"
  ∧ pd.parse_number "1.5" = Some (Finite 1.5)
  ∧ load_and_transform Sample.txt_fraction
    = Raise (TypeError "cannot safely cast non-equivalent object to int64").
Proof.
  split; [|split; [|split]]; [|reflexivity|reflexivity|vm_compute; reflexivity].
  in_table.
Qed.

(** C6.  In the column [Valeur fonciere] every comma is replaced by a
    point before the text is read as a number: the column comes out as
    another [float] column does that holds the same texts with a point
    for every comma, and [1234,56] gives the float 1234.56, the binary64
    number nearest to it.  In no other column is a comma replaced: a text
    with a comma gives a missing cell in every other typed column that is
    not a [str] column, and is kept as text in the [str] columns and in
    the columns without a type. *)
Theorem monetary_decimal_comma (txt : TextTable) (out : DataFrame) :
  load_and_transform txt = Ok out →
  (∀ c vs, (c, "float") ∈ transformations → c ≠ "Valeur fonciere" →
           pd.get txt "Valeur fonciere" = Ok vs →
           pd.get txt c = Ok (comma_to_point <$> vs) →
           pd.get out "Valeur fonciere" = pd.get out c)
  ∧ (∀ i, pd.cell txt "Valeur fonciere" i = Some "1234,56" →
          pd.cell out "Valeur fonciere" i = Some (Float (Finite float_1234_56)))
  ∧ (1234.56 - (1 # 2 ^ 43) <= float_1234_56)%Q
  ∧ (float_1234_56 <= 1234.56 + (1 # 2 ^ 43))%Q
  ∧ (∀ c dt i v, (c, dt) ∈ transformations → c ≠ "Valeur fonciere" →
                 pd.cell txt c i = Some v → has_comma v = true →
                 pd.cell out c i
                 = Some (if String.eqb dt "str" then Str v else NA))
  ∧ (∀ c i v, c ∉ transformations.*1 →
              pd.cell txt c i = Some v → has_comma v = true →
              pd.cell out c i = Some (Str v)).
Proof.
  intros Hload.
  assert (("Valeur fonciere", "float") ∈ transformations) as Hvf
    by (in_table).
  assert (∀ v, has_comma v = true → loaded v = Str v) as Hcomma.
  { intros v Hv. destruct (loaded_cases v) as [[-> _]|[_ ->]]; done. }
  split; [|split; [|split; [|split; [|split]]]].
  - intros c vs Hc Hne Hvs Hcs.
    destruct (load_column _ _ _ _ Hload Hvf) as (s1 & s1' & Hg1 & Hm1 & ->).
    destruct (load_column _ _ _ _ Hload Hc) as (s2 & s2' & Hg2 & Hm2 & ->).
    rewrite Hvs in Hg1. rewrite Hcs in Hg2.
    injection Hg1 as <-. injection Hg2 as <-.
    apply String.eqb_neq in Hne. unfold coerce in Hm1, Hm2.
    cbn [String.eqb Ascii.eqb Bool.eqb andb] in Hm1, Hm2. rewrite Hne in Hm2.
    rewrite str_replace_loaded in Hm1. congruence.
  - intros i Hv.
    apply (load_cell_float _ _ _ _ _ Hload Hvf Hv); [done|].
    vm_compute. reflexivity.
  - vm_compute. discriminate.
  - vm_compute. discriminate.
  - intros c dt i v Hc Hne Hv Hhas.
    apply String.eqb_neq in Hne.
    assert (no_comma v = false) as Hno by (by apply negb_true_iff).
    destruct (unparsed_is_null _ _ _ _ _ _ Hload Hc Hv) as (Hint & Hfloat & Hdate).
    pose proof (typed_known _ _ Hc) as Hdt. apply known_cases in Hdt.
    destruct Hdt as [ -> | [ -> | [ -> | -> ] ] ];
      cbn [String.eqb Ascii.eqb Bool.eqb andb].
    + apply Hint; [done|]. by apply comma_is_no_number.
    + apply Hfloat; [done|]. unfold float_text. rewrite Hne.
      by apply comma_is_no_number.
    + apply Hdate; [done|]. by apply comma_is_no_date.
    + by rewrite (load_cell_str _ _ _ _ _ Hload Hc Hv), Hcomma.
  - intros c i v Hc Hv Hhas.
    by rewrite (load_other _ _ _ _ Hload Hc), Hv; simpl; rewrite Hcomma.
Qed.

(** [1234,56] in [Valeur fonciere] and in [Surface reelle bati]; and a
    file that has [1234.56] in [Surface terrain]. *)
Lemma monetary_decimal_comma_witness :
  pd.cell Sample.frame "Valeur fonciere" 0 = Some (Float (Finite float_1234_56))
  ∧ pd.cell Sample.frame "Surface reelle bati" 0 = Some NA
  ∧ pd.get (pd.set Sample.frame "Surface terrain" [Float (Finite float_1234_56)])
      "Valeur fonciere"
    = pd.get (pd.set Sample.frame "Surface terrain" [Float (Finite float_1234_56)])
        "Surface terrain".
Proof.
  pose proof (monetary_decimal_comma Sample.txt Sample.frame load_sample)
    as (_ & Hvf & _ & _ & Hother & _).
  assert (load_and_transform Sample.txt_point
          = Ok (pd.set Sample.frame "Surface terrain" [Float (Finite float_1234_56)]))
    as Hpoint by (vm_compute; reflexivity).
  pose proof (monetary_decimal_comma Sample.txt_point _ Hpoint) as (Hsame & _).
  split; [|split].
  - apply Hvf. reflexivity.
  - apply (Hother "Surface reelle bati" "float" 0%nat "1234,56").
    + in_table.
    + discriminate.
    + reflexivity.
    + reflexivity.
  - apply (Hsame "Surface terrain" ["1234,56"]).
    + in_table.
    + discriminate.
    + reflexivity.
    + reflexivity.
Defined.

(** ** Dates *)



(** ** Columns without a type *)

(** C9, as amended.  A column that the table of types does not name is
    what the replacement of the empty fields left: its cells are the texts
    of the file, but for the empty ones, which are missing. *)
Theorem untyped_column_as_loaded (txt : TextTable) (out : DataFrame) (c : string) :
  load_and_transform txt = Ok out →
  c ∉ transformations.*1 →
  pd.get out c = pd.get (pd.replace EmptyString NA (pd.read_csv txt)) c
  ∧ (∀ i v, pd.cell txt c i = Some v →
            pd.cell out c i = Some (if String.eqb v EmptyString then NA else Str v))
  ∧ (∀ i, pd.cell txt c i = None → pd.cell out c i = None).
Proof.
  intros Hload Hc. split; [|split].
  - apply for_items_ok in Hload as [Hother _];
      [by apply Hother|apply transformations_nodup|apply transformations_known].
  - intros i v Hv. by rewrite (load_other _ _ _ _ Hload Hc), Hv.
  - intros i Hv. by rewrite (load_other _ _ _ _ Hload Hc), Hv.
Qed.

(** The empty field of [Commune]. *)
Lemma untyped_column_as_loaded_witness :
  pd.cell Sample.frame "Commune" 0 = Some NA.
Proof.
  refine (proj1 (proj2 (untyped_column_as_loaded Sample.txt Sample.frame "Commune"
                          load_sample _)) 0%nat EmptyString eq_refl).
  apply (bool_decide_unpack _). vm_compute. exact I.
Defined.

(** C9, as stated: the empty field of [Commune], a column without a type,
    is not the empty text in the table returned. *)
Lemma untyped_column_not_as_loaded :
  load_and_transform Sample.txt = Ok Sample.frame
  ∧ ("Commune" ∉ transformations.*1)
  ∧ pd.cell Sample.txt "Commune" 0 = Some EmptyString
  ∧ pd.cell Sample.frame "Commune" 0 = Some NA
  ∧ pd.cell Sample.frame "Commune" 0 ≠ (Str <$> pd.cell Sample.txt "Commune" 0).
Proof.
  split; [apply load_sample|].
  split; [|split; [reflexivity|split; [reflexivity|discriminate]]].
  apply (bool_decide_unpack _). vm_compute. exact I.
Qed.

(** ** Typed columns that are not in the file *)

(** C10.  A file without the typed column [Date mutation] whose column
    [No disposition], named before it in the table of types, holds the
    fraction [1.5]: [load_and_transform] raises the [TypeError] of the
    integer conversion, and no [KeyError]. *)
Theorem missing_typed_column_other_error :
  "Date mutation" ∈ transformations.*1
  ∧ ("Date mutation" ∉ Sample.txt_no_date.*1)
  ∧ pd.cell Sample.txt_no_date "No disposition" 0 = Some "1.5"
  ∧ load_and_transform Sample.txt_no_date
    = Raise (TypeError "cannot safely cast non-equivalent object to int64")
  ∧ ∀ k, load_and_transform Sample.txt_no_date ≠ Raise (KeyError k).
Proof.
  assert (load_and_transform Sample.txt_no_date
          = Raise (TypeError "cannot safely cast non-equivalent object to int64"))
    as Hload by (vm_compute; reflexivity).
  split; [in_table|].
  split; [apply (bool_decide_unpack _); vm_compute; exact I|].
  split; [reflexivity|]. split; [exact Hload|].
  intros k. by rewrite Hload.
Qed.

(** When the file lacks a typed column, [load_and_transform] raises and
    returns no table; it raises the [KeyError] of the first such column
    of the table of types whenever the integer columns named before it
    convert. *)
Lemma missing_typed_column_raises (txt : TextTable) :
  ((∃ c, c ∈ transformations.*1 ∧ c ∉ txt.*1) →
   ∃ e, load_and_transform txt = Raise e)
  ∧ (∀ pre c dt post,
       transformations = pre ++ (c, dt) :: post →
       c ∉ txt.*1 →
       (∀ c', c' ∈ pre.*1 → c' ∈ txt.*1) →
       (∀ c' s, (c', "int") ∈ pre →
                pd.get (pd.replace EmptyString NA (pd.read_csv txt)) c' = Ok s →
                ∃ s', pd.astype_Int64 (pd.to_numeric s) = Ok s') →
       load_and_transform txt = Raise (KeyError c)).
Proof.
  split.
  - intros (c & Hc & Hnot). apply for_items_missing.
    + apply transformations_known.
    + exists c. by rewrite labels_loaded.
  - intros pre c dt post Heq Hnot Hpre Hint.
    unfold load_and_transform. rewrite Heq, for_items_app.
    pose proof transformations_nodup as Hnd.
    pose proof transformations_known as Hk.
    rewrite Heq in Hnd, Hk. rewrite fmap_app in Hnd.
    apply NoDup_app in Hnd as (Hnd & _ & _).
    apply Forall_app in Hk as [Hk Hk'].
    apply Forall_cons in Hk' as [Hdt _]. simpl in Hdt.
    destruct (for_items_succeeds pre (pd.replace EmptyString NA (pd.read_csv txt)) Hnd Hk)
      as [df1 Hdf1].
    { intros c' dt' Hc'.
      assert (c' ∈ (pd.replace EmptyString NA (pd.read_csv txt)).*1) as Hin.
      { rewrite labels_loaded. apply Hpre.
        by apply (list_elem_of_fmap_2 fst _ (c', dt')). }
      destruct (pd.get (pd.replace EmptyString NA (pd.read_csv txt)) c') as [s|e] eqn:Hg.
      2:{ by apply get_raise_label in Hg as [_ Hg]. }
      exists s.
      assert (known dt') as Hkd.
      { rewrite Forall_forall in Hk. exact (Hk _ Hc'). }
      apply known_cases in Hkd as [ -> | [ -> | [ -> | -> ] ] ].
      - destruct (Hint c' s Hc' Hg) as [s' Hs']. by exists s'.
      - by eexists.
      - by eexists.
      - by eexists. }
    rewrite Hdf1. cbn [mbind result_bind for_items].
    rewrite transform_coerce by done.
    rewrite get_missing; [done|].
    by rewrite (for_items_labels _ _ _ Hdf1), labels_loaded.
Qed.

(** The sample row without [Date mutation] gives the [KeyError]. *)
Lemma missing_date_column :
  load_and_transform (Sample.file (Sample.without_field "Date mutation" Sample.row))
  = Raise (KeyError "Date mutation").
Proof. vm_compute. reflexivity. Qed.

(** * Further properties *)

(** ** The catalogue: errors and malformed answers *)

(** X1.  When the catalogue answers with a status from 400 to 599, both
    [search_dvf_dataset] and [get_resource_url] raise [HTTPError] with that
    status, whatever the body of the answer holds. *)
Theorem catalogue_http_error
    (requests_get : string → list (string * string) → Response) :
  (∀ status,
     status_code (requests_get "https://www.data.gouv.fr/api/1/datasets/"
        [("q", "demandes valeurs foncieres"); ("page_size", "10")]) = status →
     400 ≤ status < 600 →
     search_dvf_dataset requests_get = Raise (HTTPError status))
  ∧ (∀ dataset_id year status,
     status_code (requests_get
        ("https://www.data.gouv.fr/api/1/datasets/" +:+ dataset_id +:+ "/") [])
     = status →
     400 ≤ status < 600 →
     get_resource_url requests_get dataset_id year = Raise (HTTPError status)).
Proof.
  split.
  - intros status Hs Hr. unfold search_dvf_dataset, raise_for_status.
    rewrite Hs. replace ((400 <=? status) && (status <? 600)) with true by lia.
    done.
  - intros dataset_id year status Hs Hr. unfold get_resource_url, raise_for_status.
    rewrite Hs. replace ((400 <=? status) && (status <? 600)) with true by lia.
    done.
Qed.

Lemma catalogue_http_error_witness :
  let net : string → list (string * string) → Response :=
    λ _ _, {| status_code := 503;
              json := {[ "data" := Sample.datasets; "resources" := Sample.resources ]} |} in
  search_dvf_dataset net = Raise (HTTPError 503)
  ∧ get_resource_url net "b2" 2023 = Raise (HTTPError 503).
Proof.
  intros net. split.
  - apply (proj1 (catalogue_http_error net) 503); [reflexivity | lia].
  - apply (proj2 (catalogue_http_error net) "b2" 2023 503); [reflexivity | lia].
Defined.

(** X2.  An entry without a title, met before any entry with the title
    looked for, makes [search_dvf_dataset] raise [KeyError] for [title],
    also when a later entry has the title; and the first entry with the
    title, if it has no id, makes it raise [KeyError] for [id], also when
    a later entry has both. *)
Theorem search_dvf_dataset_malformed_entry
    (requests_get : string → list (string * string) → Response)
    (pre post : list obj) (d : obj) :
  let response :=
    requests_get "https://www.data.gouv.fr/api/1/datasets/"
      [("q", "demandes valeurs foncieres"); ("page_size", "10")] in
  raise_for_status response = Ok tt →
  default [] (json response !! "data") = pre ++ d :: post →
  Forall other_title pre →
  (d !! "title" = None →
   search_dvf_dataset requests_get = Raise (KeyError "title"))
  ∧ (d !! "title" = Some DVF_TITLE → d !! "id" = None →
     search_dvf_dataset requests_get = Raise (KeyError "id")).
Proof.
  intros response Hstatus Hdata Hpre. unfold search_dvf_dataset.
  fold response. rewrite Hstatus, Hdata. cbn [mbind result_bind].
  rewrite next_with_title_skip by done. split.
  - intros Ht. cbn [next_with_title]. unfold getitem. by rewrite Ht.
  - intros Ht Hid. rewrite next_with_title_hit by done.
    cbn [mbind result_bind].
    rewrite (truthy_has_key d "title" DVF_TITLE Ht). simpl.
    unfold getitem. by rewrite Hid.
Qed.

Lemma search_dvf_dataset_malformed_entry_witness :
  search_dvf_dataset (Sample.network {[ "data" := More.datasets_untitled ]})
  = Raise (KeyError "title")
  ∧ search_dvf_dataset (Sample.network {[ "data" := More.datasets_no_id ]})
    = Raise (KeyError "id").
Proof.
  assert (Forall other_title (take 1 Sample.datasets)) as Hpre.
  { repeat constructor. eexists. split; [reflexivity | discriminate]. }
  split.
  - exact (proj1 (search_dvf_dataset_malformed_entry
                    (Sample.network {[ "data" := More.datasets_untitled ]})
                    (take 1 Sample.datasets) (drop 1 Sample.datasets)
                    {[ "id" := "z9" ]} eq_refl eq_refl Hpre) eq_refl).
  - exact (proj2 (search_dvf_dataset_malformed_entry
                    (Sample.network {[ "data" := More.datasets_no_id ]})
                    (take 1 Sample.datasets) (drop 1 Sample.datasets)
                    {[ "title" := DVF_TITLE ]} eq_refl eq_refl Hpre)
             eq_refl eq_refl).
Defined.

Lemma pretty_N_go_nonempty (x : N) (s : string) :
  s ≠ EmptyString → pretty.pretty_N_go x s ≠ EmptyString.
Proof.
  revert s. induction (N.lt_wf_0 x) as [x _ IH]; intros s Hs.
  assert (x = 0 ∨ 0 < x)%N as [->|Hx] by lia.
  - by rewrite pretty.pretty_N_go_0.
  - rewrite pretty.pretty_N_go_step by done. apply IH; [|done].
    by apply N.div_lt.
Qed.

Lemma str_nonempty (n : Z) : Py.str n ≠ EmptyString.
Proof.
  assert (∀ p : positive, pretty (Npos p) ≠ EmptyString) as Hpos.
  { intros p. unfold pretty, pretty.pretty_N.
    rewrite decide_False by done.
    rewrite pretty.pretty_N_go_step by lia. by apply pretty_N_go_nonempty. }
  unfold Py.str, pretty, pretty.pretty_Z. destruct n as [|p|p]; [done|apply Hpos|done].
Qed.

Lemma scan_resources_found (year : Z) (resources : list obj) (r : obj) :
  scan_resources year resources = Some r →
  ∃ pre post, resources = pre ++ r :: post
              ∧ Forall (λ x, ¬ both_criteria year x) pre
              ∧ both_criteria year r.
Proof.
  induction resources as [|x rest IH]; [done|]. simpl.
  destruct (resource_matches year x) eqn:Hx.
  - intros [= ->]. exists [], rest. split; [done|]. split; [constructor|].
    by apply resource_matches_spec.
  - intros H. destruct (IH H) as (pre & post & -> & Hpre & Hr).
    exists (x :: pre), post. split; [done|]. split; [|done].
    constructor; [by apply resource_matches_not | done].
Qed.

Lemma incomplete_resource_no_match (year : Z) (x : obj) :
  x !! "title" = None ∨ x !! "format" = None → ¬ both_criteria year x.
Proof.
  intros [Ht|Hf] [(a & b & Hab) Hfmt].
  - rewrite Ht in Hab. simpl in Hab. destruct a; [|discriminate].
    simpl in Hab. pose proof (str_nonempty year) as Hne.
    destruct (Py.str year); [done | discriminate].
  - unfold format_is_archive in Hfmt. congruence.
Qed.

(** X3.  A url that [get_resource_url] returns is the url of a resource of
    the answer that meets both criteria, and no resource before it in the
    list meets both; the answer had no error status. *)
Theorem get_resource_url_sound
    (requests_get : string → list (string * string) → Response)
    (dataset_id : string) (year : Z) (url : string) :
  get_resource_url requests_get dataset_id year = Ok url →
  let response :=
    requests_get
      ("https://www.data.gouv.fr/api/1/datasets/" +:+ dataset_id +:+ "/") [] in
  ¬ (400 ≤ status_code response < 600)
  ∧ ∃ pre r post,
      json response !! "resources" = Some (pre ++ r :: post)
      ∧ Forall (λ x, ¬ both_criteria year x) pre
      ∧ both_criteria year r
      ∧ r !! "url" = Some url.
Proof.
  intros H. cbv zeta. unfold get_resource_url, raise_for_status in H.
  cbv zeta in H. set (response := requests_get _ []) in *.
  destruct ((400 <=? status_code response) && (status_code response <? 600)) eqn:Hs;
    [done|]. split; [lia|]. cbn [mbind result_bind] in H.
  destruct (scan_resources year (default [] (json response !! "resources")))
    as [r|] eqn:Hscan; [|done].
  apply scan_resources_found in Hscan as (pre & post & Heq & Hpre & Hr).
  destruct (negb (truthy (Some r))); [done|].
  unfold getitem in H. destruct (r !! "url") as [u|] eqn:Hu; [|done].
  injection H as ->. exists pre, r, post.
  destruct (json response !! "resources") as [l|]; simpl in Heq; [|by destruct pre].
  by subst l.
Qed.

Lemma get_resource_url_sound_witness :
  ∃ pre r post,
    Sample.resources = pre ++ r :: post
    ∧ Forall (λ x, ¬ both_criteria 2023 x) pre
    ∧ both_criteria 2023 r
    ∧ r !! "url" = Some "https://files/vf-2023.zip".
Proof.
  assert (get_resource_url
            (Sample.network {[ "resources" := Sample.resources ]})
            "5c4ae55a" 2023 = Ok "https://files/vf-2023.zip") as Hrun
    by reflexivity.
  destruct (get_resource_url_sound _ _ _ _ Hrun)
    as (_ & pre & r & post & Heq & H).
  exists pre, r, post. split; [|done]. by injection Heq.
Defined.

(** X4.  Resources without a title or without a format are passed over
    like those that miss a criterion; but the first resource that meets
    both criteria, if it has no url, makes [get_resource_url] raise
    [KeyError] for [url], also when a later resource has one. *)
Theorem get_resource_url_malformed_resource
    (requests_get : string → list (string * string) → Response)
    (dataset_id : string) (year : Z) (pre post : list obj) (r : obj) :
  let response :=
    requests_get
      ("https://www.data.gouv.fr/api/1/datasets/" +:+ dataset_id +:+ "/") [] in
  raise_for_status response = Ok tt →
  default [] (json response !! "resources") = pre ++ r :: post →
  Forall (λ x, x !! "title" = None ∨ x !! "format" = None
               ∨ ¬ both_criteria year x) pre →
  both_criteria year r →
  r !! "url" = None →
  get_resource_url requests_get dataset_id year = Raise (KeyError "url").
Proof.
  intros response Hstatus Hres Hpre Hr Hurl. unfold get_resource_url.
  fold response. rewrite Hstatus, Hres. cbn [mbind result_bind].
  rewrite scan_resources_skip.
  2:{ eapply Forall_impl; [exact Hpre|]. intros x [Hx|[Hx|Hx]]; [| |done];
      apply incomplete_resource_no_match; auto. }
  simpl. apply resource_matches_spec in Hr as Hm. rewrite Hm.
  destruct Hr as [_ Hf].
  rewrite (truthy_has_key r "format" "txt.zip" Hf). simpl.
  unfold getitem. by rewrite Hurl.
Qed.

Lemma get_resource_url_malformed_resource_witness :
  get_resource_url (Sample.network {[ "resources" := More.resources_no_url ]})
    "5c4ae55a" 2023
  = Raise (KeyError "url").
Proof.
  refine (get_resource_url_malformed_resource
            (Sample.network {[ "resources" := More.resources_no_url ]})
            "5c4ae55a" 2023 (take 2 More.resources_no_url)
            (drop 3 More.resources_no_url)
            {[ "title" := "Valeurs foncieres 2023"; "format" := "txt.zip" ]}
            eq_refl eq_refl _ _ eq_refl).
  - apply Forall_cons. split; [by left|].
    apply Forall_cons. split; [by right; left | constructor].
  - apply resource_matches_spec. reflexivity.
Defined.

(** X5.  An answer without the list, or with an empty list, is an answer
    in which nothing is found: [search_dvf_dataset] raises
    [DVF dataset not found] when [data] is absent or empty, and
    [get_resource_url] raises [No data found for year ...] when
    [resources] is absent or empty. *)
Theorem catalogue_missing_list
    (requests_get : string → list (string * string) → Response) :
  (let response :=
     requests_get "https://www.data.gouv.fr/api/1/datasets/"
       [("q", "demandes valeurs foncieres"); ("page_size", "10")] in
   raise_for_status response = Ok tt →
   json response !! "data" = None ∨ json response !! "data" = Some [] →
   search_dvf_dataset requests_get = Raise (ValueError "DVF dataset not found"))
  ∧ (∀ dataset_id year,
       let response :=
         requests_get
           ("https://www.data.gouv.fr/api/1/datasets/" +:+ dataset_id +:+ "/") [] in
       raise_for_status response = Ok tt →
       json response !! "resources" = None ∨ json response !! "resources" = Some [] →
       get_resource_url requests_get dataset_id year
       = Raise (ValueError ("No data found for year " +:+ Py.str year))).
Proof.
  split.
  - intros response Hs Hd. unfold search_dvf_dataset. fold response.
    rewrite Hs. by destruct Hd as [-> | ->].
  - intros dataset_id year response Hs Hd. unfold get_resource_url. fold response.
    rewrite Hs. by destruct Hd as [-> | ->].
Qed.

Lemma catalogue_missing_list_witness :
  search_dvf_dataset (Sample.network ∅)
  = Raise (ValueError "DVF dataset not found")
  ∧ get_resource_url (Sample.network {[ "resources" := [] ]}) "5c4ae55a" 2023
    = Raise (ValueError "No data found for year 2023").
Proof.
  split.
  - apply (proj1 (catalogue_missing_list (Sample.network ∅))); [reflexivity|].
    by left.
  - apply (proj2 (catalogue_missing_list
                    (Sample.network {[ "resources" := [] ]})) "5c4ae55a" 2023);
      [reflexivity|]. by right.
Defined.

(** ** The transformer: shape, success and errors *)

Lemma same_shape_refl {A : Type} (a : list (string * list A)) : same_shape a a.
Proof. induction a; constructor; auto. Qed.

Lemma same_shape_trans {A B C : Type} (a : list (string * list A))
    (b : list (string * list B)) (c : list (string * list C)) :
  same_shape a b → same_shape b c → same_shape a c.
Proof.
  intros Hab. revert c. induction Hab as [|x y a b [Hn Hl] _ IH]; intros c Hbc.
  - inversion Hbc. constructor.
  - inversion Hbc as [|y' z b' c' [Hn' Hl'] Hbc']; subst.
    constructor; [split; congruence | by apply IH].
Qed.

Lemma same_shape_map_cells {A B : Type} (f : A → B) (t : list (string * list A)) :
  same_shape t (pd.map_cells f t).
Proof.
  unfold pd.map_cells. induction t as [|[name s] rest IH]; constructor; [|done].
  simpl. by rewrite length_fmap.
Qed.

Lemma same_shape_set (df : DataFrame) (c : string) (s0 s : Series) :
  pd.get df c = Ok s0 → length s = length s0 → same_shape df (pd.set df c s).
Proof.
  induction df as [|[name s1] rest IH]; simpl; [done|].
  destruct (String.eqb name c).
  - intros [= ->] Hl. constructor; [done | apply same_shape_refl].
  - intros Hg Hl. constructor; [done | by apply IH].
Qed.

Lemma transform_shape (df out : DataFrame) (col dtype : string) :
  transform df col dtype = Ok out → same_shape df out.
Proof.
  destruct (decide (known dtype)) as [Hk|Hk].
  - rewrite transform_coerce by done.
    destruct (pd.get df col) as [s|] eqn:Hget; cbn [mbind result_bind]; [|done].
    destruct (coerce _ _ s) as [s'|] eqn:Hm; cbn [mbind result_bind]; [|done].
    intros [= <-]. eapply same_shape_set; [done|]. by eapply coerce_length.
  - unfold transform.
    assert (∀ t, known t → String.eqb dtype t = false) as Hne.
    { intros t Ht. apply String.eqb_neq. by intros <-. }
    rewrite !Hne by (unfold known; set_solver).
    intros [= <-]. apply same_shape_refl.
Qed.

Lemma for_items_shape (items : list (string * string)) (df out : DataFrame) :
  for_items items df = Ok out → same_shape df out.
Proof.
  revert df. induction items as [|[col dtype] rest IH]; intros df; simpl.
  - intros [= <-]. apply same_shape_refl.
  - destruct (transform df col dtype) as [df1|] eqn:Ht; cbn [mbind result_bind]; [|done].
    intros H. eapply same_shape_trans; [by eapply transform_shape | by apply IH].
Qed.

(** X6.  The table that [load_and_transform] returns has the columns of
    the file, with the same labels in the same order, and as many rows in
    each column as the file has. *)
Theorem load_keeps_shape (txt : TextTable) (out : DataFrame) :
  load_and_transform txt = Ok out →
  Forall2 (λ x y, x.1 = y.1 ∧ length x.2 = length y.2) txt out.
Proof.
  intros H. apply for_items_shape in H.
  eapply same_shape_trans; [|exact H].
  eapply same_shape_trans; apply same_shape_map_cells.
Qed.

Lemma load_keeps_shape_witness :
  Forall2 (λ x y, x.1 = y.1 ∧ length x.2 = length y.2) Sample.txt Sample.frame.
Proof. apply load_keeps_shape. apply load_sample. Defined.

(** X9.  A field of a [str] column that is not empty is kept as it is
    written (a postal code keeps its leading zero). *)
Theorem str_column_keeps_text (txt : TextTable) (out : DataFrame)
    (c : string) (i : nat) (v : string) :
  load_and_transform txt = Ok out →
  (c, "str") ∈ transformations →
  pd.cell txt c i = Some v →
  v ≠ EmptyString →
  pd.cell out c i = Some (Str v).
Proof.
  intros Hload Hc Hv Hne.
  rewrite (load_cell_str _ _ _ _ _ Hload Hc Hv).
  by destruct (loaded_cases v) as [[? _]|[_ ->]].
Qed.

Lemma str_column_keeps_text_witness :
  pd.cell Sample.frame "Code postal" 0 = Some (Str "01000").
Proof.
  apply (str_column_keeps_text Sample.txt Sample.frame "Code postal" 0 "01000").
  - apply load_sample.
  - in_table.
  - reflexivity.
  - discriminate.
Defined.

Lemma typed_unique (c dt dt' : string) :
  (c, dt) ∈ transformations → (c, dt') ∈ transformations → dt = dt'.
Proof.
  intros H H'. pose proof transformations_nodup as Hnd.
  apply list_elem_of_lookup in H as [i Hi]. apply list_elem_of_lookup in H' as [j Hj].
  assert (i = j) as ->.
  { eapply NoDup_lookup; [exact Hnd|..]; rewrite list_lookup_fmap.
    - by rewrite Hi.
    - by rewrite Hj. }
  congruence.
Qed.

(** X12.  A column of the table returned depends on that column of the
    file alone: two files that give a table and agree on a column give the
    same column. *)
Theorem columns_are_independent (txt1 txt2 : TextTable) (out1 out2 : DataFrame)
    (c : string) :
  load_and_transform txt1 = Ok out1 →
  load_and_transform txt2 = Ok out2 →
  pd.get txt1 c = pd.get txt2 c →
  pd.get out1 c = pd.get out2 c.
Proof.
  intros H1 H2 Heq.
  assert (pd.get (pd.replace EmptyString NA (pd.read_csv txt1)) c
          = pd.get (pd.replace EmptyString NA (pd.read_csv txt2)) c) as Heq0.
  { unfold pd.replace, pd.read_csv. by rewrite !get_map_cells, Heq. }
  apply for_items_ok in H1 as [Ho1 Hi1];
    [|apply transformations_nodup|apply transformations_known].
  apply for_items_ok in H2 as [Ho2 Hi2];
    [|apply transformations_nodup|apply transformations_known].
  destruct (decide (c ∈ transformations.*1)) as [Hc|Hc].
  - apply list_elem_of_fmap in Hc as ([c' dt] & -> & Hc). simpl in *.
    destruct (Hi1 c' dt Hc) as (s1 & s1' & Hg1 & Hm1 & ->).
    destruct (Hi2 c' dt Hc) as (s2 & s2' & Hg2 & Hm2 & ->).
    congruence.
  - by rewrite (Ho1 c Hc), (Ho2 c Hc).
Qed.

Lemma columns_are_independent_witness :
  pd.get Sample.frame "Valeur fonciere" = Ok [Float (Finite float_1234_56)].
Proof.
  assert (load_and_transform (Sample.file (Sample.with_field "Code postal" "75001" Sample.row))
          = Ok (pd.set Sample.frame "Code postal" [Str "75001"])) as Hother
    by (vm_compute; reflexivity).
  rewrite (columns_are_independent Sample.txt _ Sample.frame _ "Valeur fonciere"
             load_sample Hother eq_refl).
  vm_compute. reflexivity.
Defined.

Lemma same_shape_empty (txt : TextTable) (out : DataFrame) :
  same_shape txt out → Forall (λ col, col.2 = []) txt → out = pd.read_csv txt.
Proof.
  unfold pd.read_csv, pd.map_cells.
  induction 1 as [|[n cells] [n' s] txt out [Hn Hl] _ IH]; [done|].
  intros Hall. apply Forall_cons in Hall as [Hc Hall]. simpl in *. subst.
  rewrite (IH Hall). destruct s; [done | discriminate].
Qed.

Lemma get_in_table {A : Type} (t : list (string * list A)) (c : string)
    (s : list A) :
  pd.get t c = Ok s → (c, s) ∈ t.
Proof.
  induction t as [|[name s0] rest IH]; simpl; [done|].
  destruct (String.eqb_spec name c) as [->|_].
  - intros [= ->]. left.
  - intros H. right. by apply IH.
Qed.

(** X13.  A file without rows that has every column of the table of types
    gives the same columns without rows, and no error. *)
Theorem header_only_file (txt : TextTable) :
  (∀ c, c ∈ transformations.*1 → c ∈ txt.*1) →
  Forall (λ col, col.2 = []) txt →
  load_and_transform txt = Ok (pd.read_csv txt).
Proof.
  intros Hcols Hempty.
  destruct (load_returns txt Hcols) as [out Hout].
  { intros c s _ Hs. apply get_in_table in Hs.
    rewrite Forall_forall in Hempty. apply Hempty in Hs. simpl in Hs.
    subst s. by exists []. }
  rewrite Hout. f_equal. apply same_shape_empty; [|done].
  apply for_items_shape in Hout.
  eapply same_shape_trans; [|exact Hout].
  eapply same_shape_trans; apply same_shape_map_cells.
Qed.

Lemma header_only_file_witness :
  load_and_transform More.header = Ok (pd.read_csv More.header).
Proof.
  apply header_only_file.
  - apply Forall_forall. apply (bool_decide_unpack _). vm_compute. exact I.
  - apply (bool_decide_unpack _). vm_compute. exact I.
Defined.

(** ** Numbers and dates written out and read back *)

Lemma digit_facts (c : ascii) (d : Z) (rest : string) :
  pd.digit c = Some d →
  pd.skip_spaces (String c rest) = String c rest
  ∧ pd.sign (String c rest) = (false, String c rest)
  ∧ c ≠ ","%char ∧ 0 ≤ d ≤ 9.
Proof.
  destruct c as [[] [] [] [] [] [] [] []]; vm_compute; intros H;
    try discriminate H; injection H as <-;
    (split; [reflexivity|]; split; [reflexivity|]; split; [discriminate|];
     split; discriminate).
Qed.

Lemma pretty_N_char_digit (x : N) :
  (x < 10)%N → pd.digit (pretty.pretty_N_char x) = Some (Z.of_N x).
Proof.
  intros H.
  assert (x = 0 ∨ x = 1 ∨ x = 2 ∨ x = 3 ∨ x = 4 ∨ x = 5 ∨ x = 6 ∨ x = 7
          ∨ x = 8 ∨ x = 9)%N as Hx by lia.
  repeat (destruct Hx as [->|Hx]); [..|subst x]; reflexivity.
Qed.

Lemma pretty_N_go_digits (x : N) (s : string) :
  string_forall is_digit s = true →
  string_forall is_digit (pretty.pretty_N_go x s) = true.
Proof.
  revert s. induction (N.lt_wf_0 x) as [x _ IH]; intros s Hs.
  assert (x = 0 ∨ 0 < x)%N as [->|Hx] by lia.
  - by rewrite pretty.pretty_N_go_0.
  - rewrite pretty.pretty_N_go_step by done. apply IH; [by apply N.div_lt|].
    simpl. rewrite Hs, andb_true_r. unfold is_digit.
    rewrite pretty_N_char_digit; [done|]. by apply N.mod_lt.
Qed.

Lemma pretty_N_go_value (x : N) (s : string) (acc : Z) (cnt : nat) :
  ∃ k, pd.digits acc cnt (pretty.pretty_N_go x s)
       = pd.digits (acc * 10 ^ Z.of_nat k + Z.of_N x) (cnt + k) s
       ∧ ((0 < x)%N → (0 < k)%nat).
Proof.
  revert s acc cnt. induction (N.lt_wf_0 x) as [x _ IH]; intros s acc cnt.
  assert (x = 0 ∨ 0 < x)%N as [->|Hx] by lia.
  - exists 0%nat. rewrite pretty.pretty_N_go_0. split; [|lia].
    f_equal; [simpl; lia | lia].
  - rewrite pretty.pretty_N_go_step by done.
    destruct (IH (x `div` 10)%N (N.div_lt x 10 Hx eq_refl)
                (String (pretty.pretty_N_char (x `mod` 10)) s) acc cnt)
      as (k & Hk & _).
    exists (S k). split; [|lia]. rewrite Hk. cbn [pd.digits].
    rewrite pretty_N_char_digit by (by apply N.mod_lt).
    f_equal; [|lia].
    rewrite Nat2Z.inj_succ, Z.pow_succ_r by lia.
    rewrite N2Z.inj_div, N2Z.inj_mod. change (Z.of_N 10) with 10.
    pose proof (Z.div_mod (Z.of_N x) 10). lia.
Qed.
Lemma parse_decimal_digits (t : string) (m : Z) (k : nat) :
  string_forall is_digit t = true →
  pd.digits 0 0 t = (m, S k, EmptyString) →
  pd.parse_decimal t = Some (inject_Z m)
  ∧ pd.parse_decimal (String "-" t) = Some (inject_Z (- m)).
Proof.
  intros Ht Hd. destruct t as [|c rest]; [done|].
  simpl in Ht. apply andb_true_iff in Ht as [Hc _]. unfold is_digit in Hc.
  destruct (pd.digit c) as [d|] eqn:Hdc; [|done].
  destruct (digit_facts c d rest Hdc) as (Hsk & Hsg & _).
  assert (∀ x, pd.scale x (0 - Z.of_nat (k - k)) = inject_Z x) as Hm.
  { intros x. rewrite Nat.sub_diag. unfold pd.scale. simpl. by rewrite Z.mul_1_r. }
  split.
  - unfold pd.parse_decimal. rewrite Hsk, Hsg, Hd. simpl. by rewrite Hm.
  - unfold pd.parse_decimal.
    change (pd.skip_spaces (String "-" (String c rest)))
      with (String "-" (String c rest)).
    change (pd.sign (String "-" (String c rest))) with (true, String c rest).
    cbv beta iota zeta. rewrite Hd. simpl. by rewrite Hm.
Qed.

Lemma parse_number_str (z : Z) :
  pd.parse_number (Py.str z) = Some (Finite (inject_Z z)).
Proof.
  assert (∀ p : positive,
            pd.parse_decimal (pretty (Npos p)) = Some (inject_Z (Zpos p))
            ∧ pd.parse_decimal (String "-" (pretty (Npos p)))
              = Some (inject_Z (Zneg p))) as Hpos.
  { intros p. unfold pretty, pretty.pretty_N. rewrite decide_False by done.
    destruct (pretty_N_go_value (Npos p) EmptyString 0 0) as (k & Hk & Hpos).
    destruct k as [|k]; [lia|]. simpl in Hk.
    apply parse_decimal_digits with (k := k); [by apply pretty_N_go_digits|].
    exact Hk. }
  unfold pd.parse_number. destruct z as [|p|p].
  - reflexivity.
  - change (Py.str (Z.pos p)) with (pretty (Npos p)).
    by rewrite (proj1 (Hpos p)).
  - change (Py.str (Z.neg p)) with (String "-" (pretty (Npos p))).
    by rewrite (proj2 (Hpos p)).
Qed.

Lemma str_chars (z : Z) :
  string_forall (λ c, negb (Ascii.eqb c ",")) (Py.str z) = true
  ∧ Py.str z ≠ EmptyString.
Proof.
  assert (∀ s, string_forall is_digit s = true →
               string_forall (λ c, negb (Ascii.eqb c ",")) s = true) as Hd.
  { induction s as [|c s IH]; [done|]. simpl. intros H.
    apply andb_true_iff in H as [Hc Hs]. rewrite (IH Hs), andb_true_r.
    unfold is_digit in Hc. destruct (pd.digit c) as [d|] eqn:E; [|done].
    destruct (digit_facts c d EmptyString E) as (_ & _ & Hne & _).
    apply negb_true_iff. by apply Ascii.eqb_neq. }
  split; [|apply str_nonempty].
  destruct z as [|p|p]; [done| |].
  - change (Py.str (Z.pos p)) with (pretty.pretty_N (Npos p)).
    unfold pretty.pretty_N. rewrite decide_False by done.
    by apply Hd, pretty_N_go_digits.
  - change (Py.str (Z.neg p)) with (String "-" (pretty.pretty_N (Npos p))).
    unfold pretty.pretty_N. rewrite decide_False by done.
    cbn [string_forall]. rewrite Hd; [done|]. by apply pretty_N_go_digits.
Qed.

Lemma replace_no_match (s : string) :
  string_forall (λ c, negb (Ascii.eqb c ",")) s = true →
  Py.replace "," "." s = s.
Proof.
  unfold Py.replace. induction s as [|c s IH]; [done|].
  cbn [string_forall Py.replace_from].
  intros H. apply andb_true_iff in H as [Hc Hs].
  apply negb_true_iff, Ascii.eqb_neq in Hc.
  destruct (String.prefix "," (String c s)) eqn:Hp.
  - apply prefix_spec in Hp as [b Hb]. injection Hb as -> _. done.
  - by rewrite (IH Hs).
Qed.

Lemma parse_integer_digits (t : string) (m : Z) (k : nat) :
  string_forall is_digit t = true →
  pd.digits 0 0 t = (m, S k, EmptyString) →
  pd.parse_integer t = Some m
  ∧ pd.parse_integer (String "-" t) = Some (- m).
Proof.
  intros Ht Hd. destruct t as [|c rest]; [done|].
  simpl in Ht. apply andb_true_iff in Ht as [Hc _]. unfold is_digit in Hc.
  destruct (pd.digit c) as [d|] eqn:Hdc; [|done].
  destruct (digit_facts c d rest Hdc) as (Hsk & Hsg & _).
  split.
  - unfold pd.parse_integer. by rewrite Hsk, Hsg, Hd.
  - unfold pd.parse_integer.
    change (pd.skip_spaces (String "-" (String c rest)))
      with (String "-" (String c rest)).
    change (pd.sign (String "-" (String c rest))) with (true, String c rest).
    cbv beta iota zeta. by rewrite Hd.
Qed.

Lemma parse_integer_str (z : Z) : pd.parse_integer (Py.str z) = Some z.
Proof.
  assert (∀ p : positive,
            pd.parse_integer (pretty (Npos p)) = Some (Zpos p)
            ∧ pd.parse_integer (String "-" (pretty (Npos p))) = Some (Zneg p))
    as Hpos.
  { intros p. unfold pretty, pretty.pretty_N. rewrite decide_False by done.
    destruct (pretty_N_go_value (Npos p) EmptyString 0 0) as (k & Hk & Hpos).
    destruct k as [|k]; [lia|]. simpl in Hk.
    apply parse_integer_digits with (k := k); [by apply pretty_N_go_digits|].
    exact Hk. }
  destruct z as [|p|p].
  - reflexivity.
  - change (Py.str (Z.pos p)) with (pretty (Npos p)). apply Hpos.
  - change (Py.str (Z.neg p)) with (String "-" (pretty (Npos p))). apply Hpos.
Qed.

(** A whole number of 64 bits is within the range of binary64. *)
Lemma nearest_int64 (z : Z) :
  - 2 ^ 63 ≤ z < 2 ^ 63 → ∃ q, pd.nearest (inject_Z z) = Finite q.
Proof.
  intros Hz. unfold pd.nearest, inject_Z. cbn [Qnum Qden].
  destruct (Z.abs z =? 0) eqn:E0; [by eexists|].
  change (Z.log2 1) with 0. rewrite Z.sub_0_r.
  assert (0 ≤ Z.log2 (Z.abs z) ≤ 63) as Hlog.
  { split; [apply Z.log2_nonneg|].
    assert (Z.log2 (Z.abs z) < 64); [|lia].
    apply Z.log2_lt_pow2; lia. }
  match goal with
  | |- ∃ q, (if (971 <? ?e) || _ then _ else _) = _ =>
      assert (e ≤ 11) as He
  end.
  { destruct (_ <? _); lia. }
  match goal with
  | |- ∃ q, (if ?b then _ else _) = _ => assert (b = false) as ->
  end.
  { apply orb_false_iff. split; [lia|].
    apply andb_false_iff. left. lia. }
  by eexists.
Qed.

(** The reader takes the decimal of a whole number of 64 bits for that
    number. *)
Lemma read_number_str (z : Z) :
  - 2 ^ 63 ≤ z < 2 ^ 63 →
  pd.read_number (loaded (Py.str z)) = pd.Whole z.
Proof.
  intros Hz. destruct (loaded_cases (Py.str z)) as [[He _]|[_ ->]].
  { by destruct (str_nonempty z). }
  unfold pd.read_number. rewrite parse_number_str, parse_integer_str.
  by destruct (nearest_int64 z Hz) as [q ->].
Qed.

(** X10.  A column of an [int] or [float] type (the monetary column
    too) whose fields are all whole numbers of 64 bits, written in
    decimal as Python prints them, comes out as the column of these
    integers; in a [str] column the texts are kept. *)
Theorem whole_number_round_trip (txt : TextTable) (out : DataFrame)
    (c dt : string) (zs : list Z) :
  load_and_transform txt = Ok out →
  (c, dt) ∈ transformations →
  pd.get txt c = Ok (Py.str <$> zs) →
  (dt = "int" ∨ dt = "float" →
   Forall (λ z, - 2 ^ 63 ≤ z < 2 ^ 63) zs →
   pd.get out c = Ok (Int <$> zs))
  ∧ (dt = "str" → pd.get out c = Ok ((λ z, Str (Py.str z)) <$> zs)).
Proof.
  intros Hload Hc Hv.
  destruct (load_column _ _ _ _ Hload Hc) as (s & s' & Hg & Hm & ->).
  rewrite Hv in Hg. injection Hg as <-. split.
  - intros Hdt Hzs.
    assert (Forall (λ z, pd.in_int64 z = true) zs) as Hin.
    { eapply Forall_impl; [exact Hzs|]. unfold pd.in_int64. intros z Hz. simpl in Hz. lia. }
    assert (pd.read_number <$> (loaded <$> (Py.str <$> zs)) = pd.Whole <$> zs) as Hread.
    { rewrite <- !list_fmap_compose. apply Forall_fmap_ext_1.
      eapply Forall_impl; [exact Hzs|]. intros z Hz. by apply read_number_str. }
    assert (pd.str_replace "," "." (loaded <$> (Py.str <$> zs))
            = loaded <$> (Py.str <$> zs)) as Hrep.
    { rewrite str_replace_loaded. f_equal. rewrite <- list_fmap_compose.
      apply list_fmap_ext. intros i z _. simpl.
      rewrite <- replace_comma. apply replace_no_match, str_chars. }
    unfold coerce in Hm. destruct Hdt as [-> | ->];
      cbn [String.eqb Ascii.eqb Bool.eqb andb] in Hm.
    + rewrite (to_numeric_whole _ zs Hread Hin) in Hm.
      rewrite astype_Int64_integers in Hm by done. congruence.
    + destruct (String.eqb c "Valeur fonciere"); rewrite ?Hrep in Hm;
        rewrite (to_numeric_whole _ zs Hread Hin) in Hm; congruence.
  - intros ->. injection Hm as <-. f_equal.
    rewrite <- list_fmap_compose. apply list_fmap_ext. intros i z _. simpl.
    destruct (loaded_cases (Py.str z)) as [[He _]|[_ ->]]; [|done].
    by destruct (str_nonempty z).
Qed.

Lemma whole_number_round_trip_witness :
  pd.get Sample.frame "Nombre pieces principales" = Ok [Int 4]
  ∧ pd.get Sample.frame "Surface terrain" = Ok [Int 250].
Proof.
  split.
  - refine (proj1 (whole_number_round_trip Sample.txt Sample.frame
                     "Nombre pieces principales" "int" [4] load_sample _ eq_refl)
              (or_introl eq_refl) _); [in_table|].
    repeat constructor; lia.
  - refine (proj1 (whole_number_round_trip Sample.txt Sample.frame
                     "Surface terrain" "float" [250] load_sample _ eq_refl)
              (or_intror eq_refl) _); [in_table|].
    repeat constructor; lia.
Defined.

Lemma valid_date_ranges (y m d : Z) :
  pd.valid_date y m d = true → 0 ≤ y ≤ 9999 ∧ 1 ≤ m ≤ 12 ∧ 1 ≤ d ≤ 31.
Proof.
  unfold pd.valid_date, pd.in_bounds, pd.days_in_month. intros H.
  repeat (apply andb_true_iff in H as [H ?]).
  destruct (m =? 2); [destruct (pd.is_leap y)|];
    [| |destruct ((m =? 4) || (m =? 6) || (m =? 9) || (m =? 11))]; lia.
Qed.

(** X11.  A day of the calendar within the range of a timestamp, written
    as two digits [/] two digits [/] four digits, is read back in a [date]
    column as that day. *)
Theorem date_round_trip (txt : TextTable) (out : DataFrame)
    (c : string) (i : nat) (y m d : Z) :
  load_and_transform txt = Ok out →
  (c, "date") ∈ transformations →
  pd.valid_date y m d = true →
  pd.cell txt c i = Some (strftime y m d) →
  pd.cell out c i = Some (Timestamp y m d).
Proof.
  intros Hload Hc Hvalid Hv.
  rewrite (load_cell_date _ _ _ _ _ Hload Hc Hv).
  destruct (valid_date_ranges y m d Hvalid) as (Hy & Hm & Hd).
  change (loaded (strftime y m d)) with (Str (strftime y m d)).
  unfold pd.to_datetime_cell.
  by rewrite strptime_strftime, Hvalid.
Qed.

Lemma date_round_trip_witness :
  pd.cell Sample.frame "Date mutation" 0 = Some (Timestamp 2023 3 5).
Proof.
  apply (date_round_trip Sample.txt Sample.frame "Date mutation" 0 2023 3 5).
  - apply load_sample.
  - in_table.
  - reflexivity.
  - reflexivity.
Defined.

(** ** The fetcher, the exporter and the pipeline *)

Section PipelineFacts.

Variable requests_get : string → list (string * string) → Response.
Variable requests_get_stream : string → Stream.
Variable Path : string → string.
Variable joinpath : string → string → string.
Variable extract_to : string → string → string.
Variable ZipFile : string → outcome (list (string * string)).
Variable read_text : string → outcome TextTable.
Variable to_parquet : DataFrame → string.
Variable base_dir : string.






(** X14.  When the download is answered with a status from 400 to 599,
    [download_and_extract] raises [HTTPError] and no file is written. *)
Theorem download_http_error (url raw_dir : string) (fs : FS) (status : Z) :
  status_code (head (requests_get_stream url)) = status →
  400 ≤ status < 600 →
  download_and_extract requests_get_stream joinpath extract_to ZipFile
    url raw_dir fs
  = (Failed (Exn (HTTPError status)), fs).
Proof.
  intros Hs Hr. unfold download_and_extract, raise_for_status. rewrite Hs.
  by replace ((400 <=? status) && (status <? 600)) with true by lia.
Qed.

(** X15.  When what was downloaded is no archive, or an archive without
    members, [download_and_extract] raises (the error of the library, or
    [IndexError]) and the temporary archive stays where it was written,
    with the whole body in it; nothing is extracted. *)
Theorem download_bad_archive_stays (url raw_dir : string) (fs : FS) :
  let zip_path := joinpath raw_dir "temp_download.zip" in
  let bytes := String.concat EmptyString (iter_content (requests_get_stream url)) in
  raise_for_status (head (requests_get_stream url)) = Ok tt →
  (∀ e, ZipFile bytes = Failed e →
        download_and_extract requests_get_stream joinpath extract_to ZipFile
          url raw_dir fs
        = (Failed e, <[zip_path := bytes]> fs))
  ∧ (ZipFile bytes = Done [] →
     download_and_extract requests_get_stream joinpath extract_to ZipFile
       url raw_dir fs
     = (Failed IndexError, <[zip_path := bytes]> fs)).
Proof.
  intros zip_path bytes Hs. unfold download_and_extract.
  fold zip_path. fold bytes. rewrite Hs, lookup_insert_eq.
  split; [intros e He | intros He]; by rewrite He.
Qed.


(** X17.  When the dataset or the resource of the year is not found,
    [main] fails with that exception, and no file is written, changed or
    removed: nothing is downloaded.  (The two directories of the data,
    made before the search, are no files.) *)
Theorem main_catalogue_failure (args : Args) (fs : FS) (e : exn) :
  search_dvf_dataset requests_get = Raise e
  ∨ (∃ dataset_id,
       search_dvf_dataset requests_get = Ok dataset_id
       ∧ get_resource_url requests_get dataset_id (args_year args) = Raise e) →
  main requests_get requests_get_stream Path joinpath extract_to ZipFile
    read_text to_parquet base_dir args fs
  = (Failed (Exn e), fs).
Proof.
  unfold main. intros [Hs|(id & Hs & Hu)]; rewrite Hs; [done|]. by rewrite Hu.
Qed.


(** X19.  A run of [main] that succeeds has gone through the stages in
    order: the dataset found gives the resource, its url the download, the
    first member the text, the text the table; the output file holds that
    table, the temporary archive is gone, and export changes no other
    file. *)
Theorem main_success (args : Args) (fs fs' : FS) :
  let raw_dir := joinpath (joinpath (joinpath base_dir "data") "raw") "dvf" in
  let zip_path := joinpath raw_dir "temp_download.zip" in
  let output_path := output_path_of Path joinpath base_dir args in
  main requests_get requests_get_stream Path joinpath extract_to ZipFile
    read_text to_parquet base_dir args fs
  = (Done tt, fs') →
  ∃ dataset_id url txt_path fs1 text txt df,
    search_dvf_dataset requests_get = Ok dataset_id
    ∧ get_resource_url requests_get dataset_id (args_year args) = Ok url
    ∧ download_and_extract requests_get_stream joinpath extract_to ZipFile
        url raw_dir fs = (Done txt_path, fs1)
    ∧ fs1 !! txt_path = Some text
    ∧ read_text text = Done txt
    ∧ load_and_transform txt = Ok df
    ∧ fs' !! output_path = Some (to_parquet df)
    ∧ (output_path ≠ zip_path → fs' !! zip_path = None)
    ∧ (∀ p, p ≠ output_path → fs' !! p = fs1 !! p).
Proof.
  intros raw_dir zip_path output_path. unfold main.
  fold raw_dir. fold output_path. intros H.
  destruct (search_dvf_dataset requests_get) as [id|] eqn:Hs; [|done].
  destruct (get_resource_url requests_get id (args_year args)) as [url|] eqn:Hu;
    [|done].
  destruct (download_and_extract _ _ _ _ url raw_dir fs) as [[txt_path|e'] fs1] eqn:Hd;
    [|done].
  unfold load_and_transform_at in H.
  destruct (fs1 !! txt_path) as [text|] eqn:Ht; [|done].
  destruct (read_text text) as [txt|] eqn:Hr; [|done]. cbn [mbind outcome_bind] in H.
  destruct (load_and_transform txt) as [df|] eqn:Hl; [|done].
  unfold export_to_parquet in H. simpl in H. injection H as <-.
  exists id, url, txt_path, fs1, text, txt, df.
  repeat (split; [done|]). split; [apply lookup_insert_eq|]. split.
  - intros Hne. rewrite lookup_insert_ne by done.
    unfold download_and_extract in Hd. fold zip_path in Hd.
    destruct (raise_for_status _); [|done].
    rewrite lookup_insert_eq in Hd.
    destruct (ZipFile _) as [[|[txt_file data] members]|e]; [done| |done].
    destruct (_ !! zip_path); [|done].
    injection Hd as _ <-. apply lookup_delete_eq.
  - intros p Hp. by rewrite lookup_insert_ne.
Qed.

(** An empty [--output] is taken as none: the run is the run with the
    default output path. *)
Lemma main_empty_output_is_default (year : Z) (fs : FS) :
  main requests_get requests_get_stream Path joinpath extract_to ZipFile
    read_text to_parquet base_dir
    {| args_year := year; args_output := Some EmptyString |} fs
  = main requests_get requests_get_stream Path joinpath extract_to ZipFile
      read_text to_parquet base_dir
      {| args_year := year; args_output := None |} fs.
Proof. reflexivity. Qed.

End PipelineFacts.

Lemma download_http_error_witness :
  download_and_extract (More.stream 404) More.join More.join
    (More.unzip (Done More.members)) "https://files/vf-2023.zip" "raw" More.disk
  = (Failed (Exn (HTTPError 404)), More.disk).
Proof.
  apply (download_http_error (More.stream 404) More.join More.join
           (More.unzip (Done More.members)) _ _ _ 404); [reflexivity | lia].
Defined.

Lemma download_bad_archive_stays_witness :
  download_and_extract (More.stream 200) More.join More.join
    (More.unzip (Failed (LibraryError "BadZipFile")))
    "https://files/vf-2023.zip" "raw" More.disk
  = (Failed (LibraryError "BadZipFile"),
     <[ "raw/temp_download.zip" := "PK-archive" ]> More.disk)
  ∧ download_and_extract (More.stream 200) More.join More.join
      (More.unzip (Done [])) "https://files/vf-2023.zip" "raw" More.disk
    = (Failed IndexError, <[ "raw/temp_download.zip" := "PK-archive" ]> More.disk).
Proof.
  split.
  - apply (proj1 (download_bad_archive_stays (More.stream 200) More.join More.join
                    (More.unzip (Failed (LibraryError "BadZipFile")))
                    "https://files/vf-2023.zip" "raw" More.disk eq_refl)).
    reflexivity.
  - apply (proj2 (download_bad_archive_stays (More.stream 200) More.join More.join
                    (More.unzip (Done []))
                    "https://files/vf-2023.zip" "raw" More.disk eq_refl)).
    reflexivity.
Defined.


Lemma main_catalogue_failure_witness :
  main (Sample.network ∅) (More.stream 200) id More.join More.join
    (More.unzip (Done More.members)) More.read_text More.parquet "base"
    {| args_year := 2023; args_output := None |} More.disk
  = (Failed (Exn (ValueError "DVF dataset not found")), More.disk)
  ∧ main More.catalogue (More.stream 200) id More.join More.join
      (More.unzip (Done More.members)) More.read_text More.parquet "base"
      {| args_year := 1999; args_output := None |} More.disk
    = (Failed (Exn (ValueError "No data found for year 1999")), More.disk).
Proof.
  split.
  - apply main_catalogue_failure. by left.
  - apply main_catalogue_failure. right. by exists "b2".
Defined.


Lemma main_success_witness :
  ∃ fs',
    main More.catalogue (More.stream 200) id More.join More.join
      (More.unzip (Done More.members)) More.read_text More.parquet "base"
      {| args_year := 2023; args_output := None |} More.disk
    = (Done tt, fs')
    ∧ fs' !! "base/data/processed/dvf_2023.parquet" = Some "PAR1"
    ∧ fs' !! "base/data/raw/dvf/temp_download.zip" = None.
Proof.
  set (run := main _ _ _ _ _ _ _ _ _ _ _).
  assert (run = (Done tt, run.2)) as Hrun by (vm_compute; reflexivity).
  destruct (main_success _ _ _ _ _ _ _ _ _ _ _ _ Hrun)
    as (id' & url & txt_path & fs1 & text & txt & df & _ & _ & _ & _ & _ & _
        & Hout & Hzip & _).
  exists run.2. split; [exact Hrun|]. split; [exact Hout|].
  apply Hzip. discriminate.
Defined.
